(** * RPC_Python: the request/response protocol of [rpc/server.py] and
      [rpc/client.py], embedded in Rocq.

    Python values that travel through the protocol are an inductive type,
    exceptions are data, and a computation that may raise is a value of the
    error monad [outcome].  The MessagePack codec, [traceback.format_exc] and
    the text-level parts of the Python built-ins ([repr] of text, parsing of
    numeric literals) are external to the repository: they are fields of the
    classes [Codec] and [PyRuntime], over which every definition is
    parameterised.  Printing ([print(...)]) is not modelled. *)

From Stdlib Require Import ZArith String List Bool Lia.
From Stdlib Require Import Floats.SpecFloat DecimalString.
From stdpp Require Import gmap strings list.
Import ListNotations.

Set Warnings "-register-all".

Local Open Scope Z_scope.
Local Open Scope string_scope.
Local Open Scope list_scope.

(** ** Python values *)

(** [bytes] objects. *)
Abbreviation bytes := (list Byte.byte).

(** The values MessagePack can carry ([msgpack.unpackb(..., raw=False)]):
    [None], booleans, integers, binary64 floats, text, bytes, lists and
    dictionaries.  A dictionary is the list of its entries in insertion
    order; a [str] is a [string], one [ascii] per character. *)
Inductive value : Type :=
| VNone
| VBool (b : bool)
| VInt (z : Z)
| VFloat (f : spec_float)
| VStr (s : string)
| VBytes (b : bytes)
| VList (l : list value)
| VDict (d : list (value * value)).

(** [type(v).__name__] *)
Definition type_name (v : value) : string :=
  match v with
  | VNone => "NoneType"
  | VBool _ => "bool"
  | VInt _ => "int"
  | VFloat _ => "float"
  | VStr _ => "str"
  | VBytes _ => "bytes"
  | VList _ => "list"
  | VDict _ => "dict"
  end.

(** ** Exceptions *)

(** The exception classes that occur.  [SystemExit] and [KeyboardInterrupt]
    derive from [BaseException] only; every other class derives from
    [Exception]; [ConnectionError] derives from [OSError], which is what
    [socket.error] names.  [UserError] stands for any class an application
    derives from [Exception]. *)
Inductive exn_class : Type :=
| SystemExit
| KeyboardInterrupt
| TypeError
| ValueError
| AttributeError
| OverflowError
| RuntimeError
| OSError
| ConnectionError
| KeyError
| UserError (name : string).

(** An exception object: its class and [str(e)]. *)
Record exn : Type := Exn { exn_class_of : exn_class; exn_str : string }.

(** [isinstance(e, Exception)] *)
Definition is_Exception (e : exn) : bool :=
  match exn_class_of e with
  | SystemExit | KeyboardInterrupt => false
  | _ => true
  end.

(** [isinstance(e, socket.error)] *)
Definition is_socket_error (e : exn) : bool :=
  match exn_class_of e with
  | OSError | ConnectionError => true
  | _ => false
  end.

(** ** The error monad *)

Inductive outcome (A : Type) : Type :=
| Returns (a : A)
| Raises (e : exn).

Arguments Returns {A} a.
Arguments Raises {A} e.

(** [outcome] is a monad in stdpp's sense, which gives the notation
    [x ← c; k] for running [c] and continuing with [k] unless [c] raised. *)
#[global] Instance outcome_ret : MRet outcome := fun A a => Returns a.

#[global] Instance outcome_bind : MBind outcome := fun A B k c =>
  match c with
  | Returns a => k a
  | Raises e => Raises e
  end.

(** [raise cls(text)] *)
Definition raise {A : Type} (cls : exn_class) (text : string) : outcome A :=
  Raises (Exn cls text).

(** [try: body / except Exception as e: handler(e)]: an exception that is
    not an instance of [Exception] passes through. *)
Definition try_except_Exception {A : Type} (body : outcome A)
    (handler : exn -> outcome A) : outcome A :=
  match body with
  | Returns a => Returns a
  | Raises e => if is_Exception e then handler e else Raises e
  end.

(** ** External collaborators *)

(** The wire codec: [msgpack.packb] and [msgpack.unpackb(_, raw=False)]. *)
Class Codec : Type := {
  packb : value -> outcome bytes;
  unpackb : bytes -> outcome value
}.

(** The parts of the Python runtime that work on text and are taken as
    given: [repr] of a [str], of a [bytes] and of a [float]; the literal
    grammars of [int(text)] and [float(text)] ([None] for text that is not a
    literal); and [traceback.format_exc()] called while [e] is handled. *)
Class PyRuntime : Type := {
  repr_str : string -> string;
  repr_bytes : bytes -> string;
  repr_float : spec_float -> string;
  int_literal : string -> option Z;
  float_literal : string -> option spec_float;
  format_exc : exn -> string
}.

(** ** Built-in functions on values *)

(** Decimal text of an integer and of a count. *)
Definition str_of_Z (z : Z) : string := NilZero.string_of_int (Z.to_int z).

Definition str_of_nat (n : nat) : string := str_of_Z (Z.of_nat n).

(** [sep.join(parts)] *)
Fixpoint join (sep : string) (parts : list string) : string :=
  match parts with
  | [] => ""
  | [p] => p
  | p :: rest => p +:+ sep +:+ join sep rest
  end.

(** The characters of a [str], each a [str] of length one. *)
Definition chars (s : string) : list value :=
  map (fun c => VStr (String c EmptyString)) (list_ascii_of_string s).

(** The items of a [bytes], each an [int]. *)
Definition byte_values (b : bytes) : list value :=
  map (fun x => VInt (Z.of_N (Byte.to_N x))) b.

(** [needle in text] for two [str]: substring test. *)
Fixpoint str_contains (needle text : string) : bool :=
  String.prefix needle text
  || match text with
     | EmptyString => false
     | String _ rest => str_contains needle rest
     end.

Section Builtins.
Context `{PyRuntime}.

(** [repr(v)] *)
Fixpoint py_repr (v : value) : string :=
  match v with
  | VNone => "None"
  | VBool true => "True"
  | VBool false => "False"
  | VInt z => str_of_Z z
  | VFloat f => repr_float f
  | VStr s => repr_str s
  | VBytes b => repr_bytes b
  | VList l => "[" +:+ join ", " (map py_repr l) +:+ "]"
  | VDict d =>
      "{" +:+ join ", " (map (fun kv => match kv with
                                        | (k, x) => py_repr k +:+ ": " +:+ py_repr x
                                        end) d) +:+ "}"
  end.

(** [str(v)], which is also what an f-string field [{v}] produces. *)
Definition py_str (v : value) : string :=
  match v with
  | VStr s => s
  | _ => py_repr v
  end.

(** [bool(v)]: truth value. *)
Definition py_bool (v : value) : bool :=
  match v with
  | VNone => false
  | VBool b => b
  | VInt z => negb (Z.eqb z 0)
  | VFloat (S754_zero _) => false
  | VFloat _ => true
  | VStr s => negb (String.eqb s "")
  | VBytes [] => false
  | VBytes _ => true
  | VList [] => false
  | VList _ => true
  | VDict [] => false
  | VDict _ => true
  end.

(** The integer part of a finite float, rounded toward zero. *)
Definition trunc_float (s : bool) (m : positive) (e : Z) : Z :=
  let a := if Z.leb 0 e then Z.pos m * 2 ^ e else Z.pos m / 2 ^ (- e) in
  if s then - a else a.

(** [int(v)] *)
Definition py_int (v : value) : outcome Z :=
  match v with
  | VBool b => Returns (if b then 1 else 0)
  | VInt z => Returns z
  | VFloat (S754_zero _) => Returns 0
  | VFloat (S754_finite s m e) => Returns (trunc_float s m e)
  | VFloat (S754_infinity _) =>
      raise OverflowError "cannot convert float infinity to integer"
  | VFloat S754_nan => raise ValueError "cannot convert float NaN to integer"
  | VStr s =>
      match int_literal s with
      | Some z => Returns z
      | None => raise ValueError
                  ("invalid literal for int() with base 10: " +:+ repr_str s)
      end
  | VBytes b =>
      match int_literal (string_of_list_byte b) with
      | Some z => Returns z
      | None => raise ValueError
                  ("invalid literal for int() with base 10: " +:+ repr_bytes b)
      end
  | VNone | VList _ | VDict _ =>
      raise TypeError
        ("int() argument must be a string, a bytes-like object or a real number, not '"
           +:+ type_name v +:+ "'")
  end.

(** The binary64 float nearest to an integer (ties to even). *)
Definition float_of_Z (z : Z) : spec_float := binary_normalize 53 1024 z 0 false.

(** [float(v)] *)
Definition py_float (v : value) : outcome spec_float :=
  match v with
  | VBool b => Returns (float_of_Z (if b then 1 else 0))
  | VInt z =>
      match float_of_Z z with
      | S754_infinity _ => raise OverflowError "int too large to convert to float"
      | f => Returns f
      end
  | VFloat f => Returns f
  | VStr s =>
      match float_literal s with
      | Some f => Returns f
      | None => raise ValueError
                  ("could not convert string to float: " +:+ repr_str s)
      end
  | VBytes b =>
      match float_literal (string_of_list_byte b) with
      | Some f => Returns f
      | None => raise ValueError
                  ("could not convert string to float: " +:+ repr_bytes b)
      end
  | VNone | VList _ | VDict _ =>
      raise TypeError
        ("float() argument must be a string or a real number, not '"
           +:+ type_name v +:+ "'")
  end.
End Builtins.

(** ** Iteration, hashing and dictionaries *)

(** [iter(v)]: the items a [for] loop over [v] visits, [None] when [v] is
    not iterable. *)
Definition py_iter (v : value) : option (list value) :=
  match v with
  | VStr s => Some (chars s)
  | VBytes b => Some (byte_values b)
  | VList l => Some l
  | VDict d => Some (map fst d)
  | VNone | VBool _ | VInt _ | VFloat _ => None
  end.

(** Lists and dictionaries are unhashable. *)
Definition hashable (v : value) : bool :=
  match v with
  | VList _ | VDict _ => false
  | _ => true
  end.

(** A finite number [m * 2 ^ e], for the numeric types. *)
Definition numeric (v : value) : option (Z * Z) :=
  match v with
  | VBool b => Some (if b then 1 else 0, 0)
  | VInt z => Some (z, 0)
  | VFloat (S754_zero _) => Some (0, 0)
  | VFloat (S754_finite s m e) => Some (if s then Z.neg m else Z.pos m, e)
  | _ => None
  end.

Definition num_eqb (p q : Z * Z) : bool :=
  let e := Z.min (snd p) (snd q) in
  Z.eqb (fst p * 2 ^ (snd p - e)) (fst q * 2 ^ (snd q - e)).

#[global] Instance byte_eq_dec : EqDecision Byte.byte := Byte.byte_eq_dec.

(** Whether two hashable values are the same dictionary key ([==] on
    distinct objects): numbers compare by value across [bool], [int] and
    [float], a NaN equals nothing, text equals text and bytes equal bytes. *)
Definition key_eqb (a b : value) : bool :=
  match a, b with
  | VNone, VNone => true
  | VStr s, VStr t => String.eqb s t
  | VBytes x, VBytes y => bool_decide (x = y)
  | VFloat (S754_infinity s), VFloat (S754_infinity t) => Bool.eqb s t
  | _, _ =>
      match numeric a, numeric b with
      | Some p, Some q => num_eqb p q
      | _, _ => false
      end
  end.

(** [d[k] = x] on the entries of a dictionary: an equal key keeps its place
    (and its first spelling), a new key goes last. *)
Fixpoint dict_set (d : list (value * value)) (k x : value) : list (value * value) :=
  match d with
  | [] => [(k, x)]
  | (k', x') :: rest =>
      if key_eqb k' k then (k', x) :: rest else (k', x') :: dict_set rest k x
  end.

(** [d.get(name)] for a [str] key: [None] (of [option]) when absent. *)
Fixpoint dict_lookup (name : string) (d : list (value * value)) : option value :=
  match d with
  | [] => None
  | (k, x) :: rest =>
      if key_eqb k (VStr name) then Some x else dict_lookup name rest
  end.

(** [name in d] *)
Definition dict_has (name : string) (d : list (value * value)) : bool :=
  match dict_lookup name d with
  | Some _ => true
  | None => false
  end.

(** [list(v)] *)
Definition py_list (v : value) : outcome (list value) :=
  match py_iter v with
  | Some items => Returns items
  | None => raise TypeError ("'" +:+ type_name v +:+ "' object is not iterable")
  end.

(** The loop of [dict(iterable)]: item number [i] must itself iterate to
    exactly a key and a value, and the key must be hashable. *)
Fixpoint dict_from_items (i : nat) (acc : list (value * value)) (items : list value)
    : outcome (list (value * value)) :=
  match items with
  | [] => Returns acc
  | item :: rest =>
      match py_iter item with
      | None =>
          raise TypeError
            ("cannot convert dictionary update sequence element #"
               +:+ str_of_nat i +:+ " to a sequence")
      | Some [k; x] =>
          if hashable k then dict_from_items (S i) (dict_set acc k x) rest
          else raise TypeError ("unhashable type: '" +:+ type_name k +:+ "'")
      | Some parts =>
          raise ValueError
            ("dictionary update sequence element #" +:+ str_of_nat i
               +:+ " has length " +:+ str_of_nat (length parts)
               +:+ "; 2 is required")
      end
  end.

(** [dict(v)] *)
Definition py_dict (v : value) : outcome (list (value * value)) :=
  match v with
  | VDict d => Returns d
  | _ =>
      match py_iter v with
      | Some items => dict_from_items 0 [] items
      | None => raise TypeError ("'" +:+ type_name v +:+ "' object is not iterable")
      end
  end.

(** ** [rpc/client.py]: [RPCResult] *)

Record RPCResult : Type := mkRPCResult { value_of : value }.

Section ResultWrapper.
Context `{PyRuntime}.

Definition as_int (self : RPCResult) : outcome Z := py_int (value_of self).

Definition as_float (self : RPCResult) : outcome spec_float :=
  py_float (value_of self).


Definition as_bool (self : RPCResult) : outcome bool :=
  Returns (py_bool (value_of self)).

Definition as_list (self : RPCResult) : outcome (list value) :=
  py_list (value_of self).

Definition as_dict (self : RPCResult) : outcome (list (value * value)) :=
  py_dict (value_of self).

Definition get (self : RPCResult) : value := value_of self.
End ResultWrapper.

(** ** Callables and envelopes *)

(** A bound function: called with positional and keyword arguments, it
    returns a value or raises. *)
Definition callable : Type := list value -> list (string * value) -> outcome value.

(** The dictionary a call receives as [**kwargs], as a value. *)
Definition kwargs_dict (kwargs : list (string * value)) : value :=
  VDict (map (fun kv => (VStr (fst kv), snd kv)) kwargs).

(** The keyword bindings when a dictionary is unpacked with [**] in a call:
    every key has to be a [str]. *)
Fixpoint keywords (d : list (value * value)) : option (list (string * value)) :=
  match d with
  | [] => Some []
  | (VStr name, x) :: rest =>
      match keywords rest with
      | Some kw => Some ((name, x) :: kw)
      | None => None
      end
  | _ :: _ => None
  end.

(** [obj.get(name, default)]: only a dictionary has the method. *)
Definition py_get (obj : value) (name : string) (default : value) : outcome value :=
  match obj with
  | VDict d =>
      Returns (match dict_lookup name d with Some x => x | None => default end)
  | _ =>
      raise AttributeError
        ("'" +:+ type_name obj +:+ "' object has no attribute 'get'")
  end.

(** [name in obj] for a [str] [name]: a key of a dictionary, an item of a
    list, a substring of a [str]; the other types raise. *)
Definition py_in (name : string) (obj : value) : outcome bool :=
  match obj with
  | VDict d => Returns (dict_has name d)
  | VList l => Returns (existsb (key_eqb (VStr name)) l)
  | VStr s => Returns (str_contains name s)
  | VBytes _ => raise TypeError "a bytes-like object is required, not 'str'"
  | VNone | VBool _ | VInt _ | VFloat _ =>
      raise TypeError ("argument of type '" +:+ type_name obj +:+ "' is not iterable")
  end.

(** Line feed. *)
Definition nl : string := String (Ascii.ascii_of_nat 10) EmptyString.

Section Subscript.
Context `{PyRuntime}.

(** [obj[name]] for a [str] [name]. *)
Definition py_getitem (obj : value) (name : string) : outcome value :=
  match obj with
  | VDict d =>
      match dict_lookup name d with
      | Some x => Returns x
      | None => raise KeyError (repr_str name)
      end
  | VList _ => raise TypeError "list indices must be integers or slices, not str"
  | VStr _ => raise TypeError "string indices must be integers, not 'str'"
  | VBytes _ => raise TypeError "byte indices must be integers or slices, not str"
  | VNone | VBool _ | VInt _ | VFloat _ =>
      raise TypeError ("'" +:+ type_name obj +:+ "' object is not subscriptable")
  end.
End Subscript.

(** [x += text] for a [str] [text]: concatenation on a [str], extension by
    the characters on a list, a [TypeError] on the other types. *)
Definition py_iadd_str (x : value) (text : string) : outcome value :=
  match x with
  | VStr s => Returns (VStr (s +:+ text))
  | VList l => Returns (VList (l ++ chars text))
  | VBytes _ => raise TypeError "can't concat str to bytes"
  | VNone | VBool _ | VInt _ | VFloat _ | VDict _ =>
      raise TypeError
        ("unsupported operand type(s) for +=: '" +:+ type_name x +:+ "' and 'str'")
  end.

(** A one-way socket endpoint as the code sees it: what [send] does with a
    message. *)
Definition sender : Type := bytes -> outcome unit.

(** * [rpc/server.py] *)
Module Server.

(** The attributes of a [Server]; [server_socket] is [None], or the
    listening socket with whether it is still open. *)
Record t : Type := mk {
  host : string;
  port : Z;
  functions : gmap string callable;
  server_socket : option bool;
  running : bool
}.

Definition __init__ (port : Z) (host : string) : t :=
  {| host := host; port := port; functions := ∅;
     server_socket := None; running := false |}.

(** [bind]: [self.functions[name] = func]. *)
Definition bind (self : t) (name : string) (func : callable) : t :=
  {| host := host self; port := port self;
     functions := <[name := func]> (functions self);
     server_socket := server_socket self; running := running self |}.

(** [stop], lines 177-184. *)
Definition stop (self : t) : t :=
  {| host := host self; port := port self; functions := functions self;
     server_socket := match server_socket self with
                      | Some _ => Some false
                      | None => None
                      end;
     running := false |}.

(** [method_name in self.functions], with the entry when it is there:
    hashing a list or a dictionary raises, and no key other than a [str]
    equals one of the table's names. *)
Definition resolve (self : t) (method_name : value) : outcome (option callable) :=
  if hashable method_name then
    Returns (match method_name with
             | VStr name => functions self !! name
             | _ => None
             end)
  else raise TypeError ("unhashable type: '" +:+ type_name method_name +:+ "'").

(** Lines 112-117: a list is unpacked into positional arguments, a
    dictionary into keyword arguments ([isinstance] tests, in this order),
    and any other value is the single positional argument. *)
Definition apply_params (func : callable) (params : value) : outcome value :=
  match params with
  | VList l => func l []
  | VDict d =>
      match keywords d with
      | Some kw => func [] kw
      | None => raise TypeError "keywords must be strings"
      end
  | _ => func [params] []
  end.

Section WithRuntime.
Context `{PyRuntime} `{Codec}.

(** The envelope of the two [except Exception as e] handlers. *)
Definition error_response (e : exn) : value :=
  VDict [(VStr "error", VStr (exn_str e));
         (VStr "traceback", VStr (format_exc e))].

(** [_process_request], lines 92-125.  The result is [Raises] only for
    an exception that [except Exception] does not catch. *)
Definition _process_request (self : t) (request : value) : outcome value :=
  try_except_Exception
    (method_name ← py_get request "method" VNone;
     params ← py_get request "params" (VList []);
     found ← resolve self method_name;
     match found with
     | None =>
         mret (VDict [(VStr "error",
                       VStr ("Method '" +:+ py_str method_name +:+ "' not found"))])
     | Some func =>
         result ← apply_params func params;
         mret (VDict [(VStr "result", result)])
     end)
    (fun e => mret (error_response e)).

(** Lines 66-84, the body of the handler's loop after a non-empty read:
    the messages it puts on the wire, and the exception that leaves the
    body, if any. *)
Definition answer (self : t) (send : sender) (data : bytes)
    : list bytes * option exn :=
  let on_exception (e : exn) :=
    if is_Exception e then
      match packb (error_response e) with
      | Returns error_data =>
          match send error_data with
          | Returns _ => ([error_data], None)
          | Raises e' => ([], Some e')
          end
      | Raises e' => ([], Some e')
      end
    else ([], Some e) in
  match (request ← unpackb data;
         response ← _process_request self request;
         packb response) with
  | Returns response_data =>
      match send response_data with
      | Returns _ => ([response_data], None)
      | Raises e => on_exception e
      end
  | Raises e => on_exception e
  end.
End WithRuntime.


(** ** Connections and the listener *)

(** An accepted connection and its handler thread: the socket's [send],
    whether the socket is still open (the handler is then blocked in
    [recv]), the messages sent so far, and the exception that ended the
    thread, if one did. *)
Record conn : Type := mkConn {
  c_send : sender;
  c_open : bool;
  c_sent : list bytes;
  c_escaped : option exn
}.

(** The [finally] of [_handle_client]: the socket is closed.  An exception
    that [except Exception] (line 86) does not catch ends the thread. *)
Definition finish (c : conn) (sent : list bytes) (raised : option exn) : conn :=
  {| c_send := c_send c; c_open := false; c_sent := c_sent c ++ sent;
     c_escaped := match raised with
                  | Some e => if is_Exception e then None else Some e
                  | None => None
                  end |}.

(** A server with its accept loop ([accepting]: [run] is inside its
    [while]) and its connections, in the order they were accepted. *)
Record world : Type := mkWorld {
  server : t;
  accepting : bool;
  conns : list conn
}.

(** What the environment does: another thread calls [stop]; the pending
    [accept] returns a peer's connection, with the behaviour of the new
    socket's [send]; the pending [accept] raises; [recv] on connection [i]
    returns or raises. *)
Inductive event : Type :=
| EvStop
| EvConnect (send : sender)
| EvAcceptRaises (e : exn)
| EvRecv (i : nat) (r : outcome bytes).

Section Handler.
Context `{PyRuntime} `{Codec}.

(** [_handle_client] when it starts, lines 59-60: the loop is entered
    only while [self.running]. *)
Definition _handle_client_start (self : t) (send : sender) : conn :=
  {| c_send := send; c_open := running self; c_sent := []; c_escaped := None |}.

(** [_handle_client] from the [recv] of line 62 to the next [recv]:
    [self] is the server as it is when the read returns. *)
Definition _handle_client_recv (self : t) (c : conn) (r : outcome bytes) : conn :=
  if c_open c then
    match r with
    | Raises e => finish c [] (Some e)
    | Returns [] => finish c [] None
    | Returns data =>
        match answer self (c_send c) data with
        | (sent, Some e) => finish c sent (Some e)
        | (sent, None) =>
            if running self then
              {| c_send := c_send c; c_open := true;
                 c_sent := c_sent c ++ sent; c_escaped := c_escaped c |}
            else finish c sent None
        end
    end
  else c.

(** The accept loop of [run], lines 143-158, from the moment [accept]
    returns or raises to the next call of [accept].  A connection is handed
    to a new handler thread and the [while] test is made again; an exception
    leaves the loop.  When the loop ends, the [finally] of line 163 calls
    [stop]. *)
Definition accept_done (w : world) (accepted : outcome sender) : world :=
  match accepted with
  | Returns send =>
      let cs := conns w ++ [_handle_client_start (server w) send] in
      if running (server w) then
        {| server := server w; accepting := true; conns := cs |}
      else {| server := stop (server w); accepting := false; conns := cs |}
  | Raises _ =>
      {| server := stop (server w); accepting := false; conns := conns w |}
  end.

(** [run] up to the accept loop, lines 132-138, given what [bind] and
    [listen] do. *)
Definition run_begin (self : t) (listening : outcome unit) (cs : list conn) : world :=
  let s := {| host := host self; port := port self; functions := functions self;
              server_socket := Some true; running := running self |} in
  match listening with
  | Returns _ =>
      {| server := {| host := host s; port := port s; functions := functions s;
                      server_socket := server_socket s; running := true |};
         accepting := true; conns := cs |}
  | Raises _ => {| server := stop s; accepting := false; conns := cs |}
  end.

(** The effect of one event.  [stop] only resets [running] and closes the
    listening socket: an accept loop that is blocked in [accept] stays there
    until that call returns or raises, and tests [self.running] then. *)
Definition step (w : world) (ev : event) : world :=
  match ev with
  | EvStop =>
      {| server := stop (server w); accepting := accepting w; conns := conns w |}
  | EvConnect send =>
      if accepting w then accept_done w (Returns send) else w
  | EvAcceptRaises e =>
      if accepting w then accept_done w (Raises e) else w
  | EvRecv i r =>
      match conns w !! i with
      | Some c =>
          {| server := server w; accepting := accepting w;
             conns := <[i := _handle_client_recv (server w) c r]> (conns w) |}
      | None => w
      end
  end.

Definition run_events (w : world) (evs : list event) : world :=
  fold_left step evs w.
End Handler.

End Server.

(** * [rpc/client.py]: [Client] *)
Module Client.

(** The connected socket as the client uses it: what [send] does with the
    request, what the following [recv] returns, and what [close] does. *)
Record sock : Type := mkSock {
  send : sender;
  recv : outcome bytes;
  shut : outcome unit
}.

Record t : Type := mk {
  host : string;
  port : Z;
  socket : option sock
}.

(** [__init__] with [_connect], lines 64-86, given what creating and
    connecting the socket does. *)
Definition __init__ (host : string) (port : Z) (connected : outcome sock) : outcome t :=
  match connected with
  | Returns s => Returns {| host := host; port := port; socket := Some s |}
  | Raises e =>
      if is_Exception e then
        raise ConnectionError
          ("Failed to connect to " +:+ host +:+ ":" +:+ str_of_Z port +:+ ": "
             +:+ exn_str e)
      else Raises e
  end.

(** Lines 107-114: the parameters sent for [*args] and [**kwargs]; a
    tuple and a dictionary are true when they are not empty. *)
Definition build_params (args : list value) (kwargs : list (string * value)) : value :=
  let nonempty {A : Type} (l : list A) := match l with [] => false | _ => true end in
  if nonempty args && nonempty kwargs then VList (args ++ [kwargs_dict kwargs])
  else if nonempty kwargs then kwargs_dict kwargs
  else VList args.

(** Lines 116-119: the request envelope. *)
Definition build_request (method_name : string) (args : list value)
    (kwargs : list (string * value)) : value :=
  VDict [(VStr "method", VStr method_name);
         (VStr "params", build_params args kwargs)].

(** The two [except] clauses of [call], lines 140-143. *)
Definition call_except {A : Type} (body : outcome A) : outcome A :=
  match body with
  | Returns a => Returns a
  | Raises e =>
      if is_socket_error e then
        raise ConnectionError ("Communication error: " +:+ exn_str e)
      else if is_Exception e then
        raise RuntimeError ("Call failed: " +:+ exn_str e)
      else Raises e
  end.

(** [close], lines 145-152: the client afterwards, and the sockets on
    which [close()] succeeded.  When closing the socket raises, the
    exception leaves [close] before [self.socket] is reset. *)
Definition close (self : t) : outcome (t * list sock) :=
  match socket self with
  | Some s =>
      _ ← shut s;
      mret ({| host := host self; port := port self; socket := None |}, [s])
  | None => mret (self, [])
  end.

Section WithRuntime.
Context `{PyRuntime} `{Codec}.

(** Lines 130-138: what [call] makes of the decoded response. *)
Definition check_response (response : value) : outcome RPCResult :=
  has_error ← py_in "error" response;
  if has_error : bool then
    error_msg ← py_getitem response "error";
    has_traceback ← py_in "traceback" response;
    error_msg ← (if has_traceback : bool then
                   tb ← py_getitem response "traceback";
                   py_iadd_str error_msg
                     (nl +:+ "Server traceback:" +:+ nl +:+ py_str tb)
                 else mret error_msg);
    raise RuntimeError ("Remote call failed: " +:+ py_str error_msg)
  else
    result ← py_get response "result" VNone;
    mret (mkRPCResult result).

(** [call], lines 88-143. *)
Definition call (self : t) (method_name : string) (args : list value)
    (kwargs : list (string * value)) : outcome RPCResult :=
  match socket self with
  | None => raise ConnectionError "Not connected to server"
  | Some s =>
      let request := build_request method_name args kwargs in
      call_except
        (request_data ← packb request;
         _ ← send s request_data;
         response_data ← recv s;
         response ← unpackb response_data;
         check_response response)
  end.
End WithRuntime.

End Client.

(** * Sample instances

    A runtime, a codec and a server on which the model can be run.  The codec
    is a fragment of MessagePack: [nil], the booleans, the fixints,
    [fixstr] and [str 8], and [fixarray] and [fixmap]. *)
Module Sample.

Definition byte_of (n : Z) : Byte.byte :=
  match Byte.of_N (Z.to_N n) with
  | Some b => b
  | None => Byte.x00
  end.

Definition Z_of_byte (b : Byte.byte) : Z := Z.of_N (Byte.to_N b).

Definition concat_packed (parts : list (option bytes)) : option bytes :=
  fold_right (fun p acc =>
                match p, acc with
                | Some x, Some y => Some (x ++ y)
                | _, _ => None
                end) (Some []) parts.

Fixpoint pack (v : value) : option bytes :=
  match v with
  | VNone => Some [Byte.xc0]
  | VBool false => Some [Byte.xc2]
  | VBool true => Some [Byte.xc3]
  | VInt z =>
      if Z.leb 0 z && Z.ltb z 128 then Some [byte_of z]
      else if Z.leb (-32) z && Z.ltb z 0 then Some [byte_of (256 + z)]
      else None
  | VStr s =>
      let n := Z.of_nat (String.length s) in
      if Z.ltb n 32 then Some (byte_of (160 + n) :: list_byte_of_string s)
      else if Z.ltb n 256 then Some (Byte.xd9 :: byte_of n :: list_byte_of_string s)
      else None
  | VList l =>
      let n := Z.of_nat (length l) in
      if Z.ltb n 16 then
        match concat_packed (map pack l) with
        | Some body => Some (byte_of (144 + n) :: body)
        | None => None
        end
      else None
  | VDict d =>
      let n := Z.of_nat (length d) in
      if Z.ltb n 16 then
        match concat_packed (map (fun kv => match kv with
                                           | (k, x) => concat_packed [pack k; pack x]
                                           end) d) with
        | Some body => Some (byte_of (128 + n) :: body)
        | None => None
        end
      else None
  | VFloat _ | VBytes _ => None
  end.

(** One value from the front of [bs], and the bytes left over. *)
Fixpoint unpack (fuel : nat) (bs : bytes) : option (value * bytes) :=
  match fuel with
  | O => None
  | S fuel' =>
      let items :=
        fix items (n : nat) (bs : bytes) : option (list value * bytes) :=
          match n with
          | O => Some ([], bs)
          | S n' =>
              match unpack fuel' bs with
              | Some (x, bs') =>
                  match items n' bs' with
                  | Some (xs, bs'') => Some (x :: xs, bs'')
                  | None => None
                  end
              | None => None
              end
          end in
      let pairs :=
        fix pairs (xs : list value) : option (list (value * value)) :=
          match xs with
          | [] => Some []
          | VStr k :: x :: rest =>
              match pairs rest with
              | Some d => Some ((VStr k, x) :: d)
              | None => None
              end
          | _ => None
          end in
      match bs with
      | [] => None
      | b :: rest =>
          let n := Z_of_byte b in
          if Z.ltb n 128 then Some (VInt n, rest)
          else if Z.ltb n 144 then
            match items (2 * Z.to_nat (n - 128))%nat rest with
            | Some (xs, rest') =>
                match pairs xs with
                | Some d => Some (VDict d, rest')
                | None => None
                end
            | None => None
            end
          else if Z.ltb n 160 then
            match items (Z.to_nat (n - 144)) rest with
            | Some (xs, rest') => Some (VList xs, rest')
            | None => None
            end
          else if Z.ltb n 192 then
            let k := Z.to_nat (n - 160) in
            if (k <=? length rest)%nat then
              Some (VStr (string_of_list_byte (take k rest)), drop k rest)
            else None
          else if Z.eqb n 217 then
            match rest with
            | [] => None
            | len :: rest' =>
                let k := Z.to_nat (Z_of_byte len) in
                if (k <=? length rest')%nat then
                  Some (VStr (string_of_list_byte (take k rest')), drop k rest')
                else None
            end
          else if Z.eqb n 192 then Some (VNone, rest)
          else if Z.eqb n 194 then Some (VBool false, rest)
          else if Z.eqb n 195 then Some (VBool true, rest)
          else if Z.leb 224 n then Some (VInt (n - 256), rest)
          else None
      end
  end.

#[global] Instance codec : Codec := {|
  packb v :=
    match pack v with
    | Some b => Returns b
    | None => raise TypeError ("can not serialize '" +:+ type_name v +:+ "' object")
    end;
  unpackb data :=
    match unpack (S (length data)) data with
    | Some (v, []) => Returns v
    | Some (_, _ :: _) => raise ValueError "unpack(b) received extra data."
    | None => raise ValueError "Unpack failed: incomplete input"
    end
|}.

Definition class_name (c : exn_class) : string :=
  match c with
  | SystemExit => "SystemExit"
  | KeyboardInterrupt => "KeyboardInterrupt"
  | TypeError => "TypeError"
  | ValueError => "ValueError"
  | AttributeError => "AttributeError"
  | OverflowError => "OverflowError"
  | RuntimeError => "RuntimeError"
  | OSError => "OSError"
  | ConnectionError => "ConnectionError"
  | KeyError => "KeyError"
  | UserError name => name
  end.

(** Text is quoted without escapes, floats are not printed or parsed, and
    an integer literal is an optional sign and decimal digits. *)
#[global] Instance runtime : PyRuntime := {|
  repr_str s := "'" +:+ s +:+ "'";
  repr_bytes b := "b'" +:+ string_of_list_byte b +:+ "'";
  repr_float _ := "<float>";
  int_literal s := option_map Z.of_int (NilZero.int_of_string s);
  float_literal _ := None;
  format_exc e :=
    "Traceback (most recent call last):" +:+ nl
      +:+ class_name (exn_class_of e) +:+ ": " +:+ exn_str e +:+ nl
|}.

(** [lambda a, b: a + b] on integers. *)
Definition add : callable := fun args kwargs =>
  match args, kwargs with
  | [VInt a; VInt b], [] => Returns (VInt (a + b))
  | _, _ => raise TypeError "add() takes two integers"
  end.

(** [lambda name: f"Hello, {name}!"] *)
Definition greet : callable := fun args kwargs =>
  match args, kwargs with
  | [x], [] | [], [("name", x)] => Returns (VStr ("Hello, " +:+ py_str x +:+ "!"))
  | _, _ => raise TypeError "greet() takes the one argument 'name'"
  end.

(** A function that raises [ValueError("bad input")]. *)
Definition boom : callable := fun _ _ => raise ValueError "bad input".

(** A function that calls [sys.exit(0)]. *)
Definition quit : callable := fun _ _ => raise SystemExit "0".

Definition srv : Server.t :=
  Server.bind
    (Server.bind
       (Server.bind
          (Server.bind (Server.__init__ 8080 "0.0.0.0") "add" add)
          "greet" greet)
       "boom" boom)
    "quit" quit.

(** A socket on which every [send] succeeds. *)
Definition send_ok : sender := fun _ => Returns tt.

(** The server running, with one open connection. *)
Definition world1 : Server.world :=
  Server.step (Server.run_begin srv (Returns tt) []) (Server.EvConnect send_ok).

(** The encoding of a value that the codec can encode. *)
Definition bytes_of (v : value) : bytes :=
  match packb v with
  | Returns b => b
  | Raises _ => []
  end.

(** The bytes of a request. *)
Definition request_bytes (method_name : string) (args : list value)
    (kwargs : list (string * value)) : bytes :=
  bytes_of (Client.build_request method_name args kwargs).

(** The server while it runs, and a connection whose handler waits for
    its first request. *)
Definition running_srv : Server.t := Server.server world1.

Definition conn0 : Server.conn := Server._handle_client_start running_srv send_ok.

(** A connected socket whose next [recv] returns the encoding of [reply],
    and a client that holds it. *)
Definition sock (reply : value) : Client.sock :=
  {| Client.send := send_ok; Client.recv := Returns (bytes_of reply);
     Client.shut := Returns () |}.

Definition client (reply : value) : Client.t :=
  {| Client.host := "127.0.0.1"; Client.port := 8080;
     Client.socket := Some (sock reply) |}.

End Sample.

(** * Vocabulary of the specification *)

(** [name in envelope], for an envelope that is a dictionary. *)
Definition has_key (name : string) (envelope : value) : bool :=
  match envelope with
  | VDict d => dict_has name d
  | _ => false
  end.

(** A response envelope carries [result] or [error], not both and not
    neither. *)
Definition result_xor_error (envelope : value) : Prop :=
  xorb (has_key "result" envelope) (has_key "error" envelope) = true.

(** The success envelope and the two failure envelopes of the server. *)
Definition success_envelope (result : value) : value :=
  VDict [(VStr "result", result)].

Definition not_found_envelope (name : string) : value :=
  VDict [(VStr "error", VStr ("Method '" +:+ name +:+ "' not found"))].

(** The envelope in which the server reports what a call did: the result,
    or the exception when [except Exception] catches it. *)
Definition reply_of `{PyRuntime} (o : outcome value) : outcome value :=
  match o with
  | Returns result => Returns (success_envelope result)
  | Raises e => if is_Exception e then Returns (Server.error_response e) else Raises e
  end.

(** The parameters of a request: [request.get("params", [])]. *)
Definition request_params (d : list (value * value)) : value :=
  match dict_lookup "params" d with
  | Some p => p
  | None => VList []
  end.

(** Neither a list nor a dictionary. *)
Definition scalar (v : value) : Prop :=
  match v with
  | VList _ | VDict _ => False
  | _ => True
  end.



(** The handler of connection [c] answered with the one message [msg] and
    is waiting for the next request. *)
Definition answered (c : Server.conn) (msg : bytes) : Server.conn :=
  {| Server.c_send := Server.c_send c; Server.c_open := true;
     Server.c_sent := Server.c_sent c ++ [msg];
     Server.c_escaped := Server.c_escaped c |}.



(** The request names the method [name]. *)
Definition names_method (request : value) (name : string) : Prop :=
  exists d, request = VDict d /\ dict_lookup "method" d = Some (VStr name).

(** The value bound to [name] by the last pair for it in a list of pairs. *)
Fixpoint last_binding (name : string) (pairs : list (string * value)) : option value :=
  match pairs with
  | [] => None
  | (k, x) :: rest =>
      match last_binding name rest with
      | Some y => Some y
      | None => if String.eqb k name then Some x else None
      end
  end.

(** A list of pairs as a value: each pair the list of a name and a value. *)
Definition pair_items (pairs : list (string * value)) : value :=
  VList (map (fun kv => VList [VStr (fst kv); snd kv]) pairs).

(** * [examples/async_server_example.py] *)

(** [range(n)] for an integer [n]: 0, 1, ... below [n]; empty when [n] is
    not positive. *)
Definition py_range (n : Z) : list Z := map Z.of_nat (seq 0 (Z.to_nat n)).

(** [sum(xs)] of integers. *)
Definition py_sum (xs : list Z) : Z := fold_left Z.add xs 0.

(** [heavy_computation], lines 19-25, on its argument: [range] takes an
    integer (a [bool] is one) and rejects every other type.  The pause and
    the printing are not modelled. *)
Definition heavy_computation (n : value) : outcome value :=
  let squares (z : Z) := VInt (py_sum (map (fun i => i * i) (py_range z))) in
  match n with
  | VInt z => Returns (squares z)
  | VBool b => Returns (squares (if b then 1 else 0))
  | _ =>
      raise TypeError
        ("'" +:+ type_name n +:+ "' object cannot be interpreted as an integer")
  end.

(** A call as the client sees it when the request reaches
    [_process_request] and the reply reaches the client as they were built:
    lines 130-143 of [call] applied to the server's response. *)
Definition loopback `{PyRuntime} (srv : Server.t) (request : value) : outcome RPCResult :=
  Client.call_except
    (response ← Server._process_request srv request;
     Client.check_response response).

(** * More sample items *)

(** A function without parameters that returns "pong". *)
Definition ping : callable := fun args kwargs =>
  match args, kwargs with
  | [], [] => Returns (VStr "pong")
  | _, _ => raise TypeError "ping() takes no arguments"
  end.

(** A function that returns a float, which the sample codec does not
    encode. *)
Definition half : callable := fun _ _ => Returns (VFloat (S754_finite false 1 (-1))).

(** A connected socket on which [send] fails with a broken pipe. *)
Definition broken_sock : Client.sock :=
  {| Client.send := fun _ => raise OSError "[Errno 32] Broken pipe";
     Client.recv := Returns []; Client.shut := Returns () |}.


(** ** What the conversions of the result wrapper have to do

    The built-in conversions as Python documents them, stated on the
    outcome [o] of converting [v], without the functions of the model. *)

















(** * Theorems *)

(** ** Shared lemmas *)

Lemma keywords_kwargs (kwargs : list (string * value)) :
  keywords (map (fun kv => (VStr (fst kv), snd kv)) kwargs) = Some kwargs.
Proof.
  induction kwargs as [|[name x] rest IH]; [reflexivity|].
  cbn. cbn in IH. now rewrite IH.
Qed.

Lemma prefix_app (s t : string) : String.prefix s (s +:+ t) = true.
Proof.
  induction s as [|a s IH]; simpl.
  - now destruct t.
  - destruct (Ascii.ascii_dec a a); [exact IH | congruence].
Qed.

Lemma str_contains_app (pre s post : string) :
  str_contains s (pre +:+ s +:+ post) = true.
Proof.
  induction pre as [|a pre IH].
  - change (str_contains s (s +:+ post) = true).
    pose proof (prefix_app s post) as Hp.
    destruct (s +:+ post); cbn [str_contains]; rewrite Hp; reflexivity.
  - change (str_contains s (String a (pre +:+ s +:+ post)) = true).
    cbn [str_contains]. rewrite IH. apply orb_true_r.
Qed.

Section Protocol.
Context `{PyRuntime} `{Codec}.

(** What [_process_request] does with a request that names a bound
    function: it replies with what the call did. *)
Lemma process_request_bound (self : Server.t) (d : list (value * value))
    (name : string) (f : callable) :
  dict_lookup "method" d = Some (VStr name) ->
  Server.functions self !! name = Some f ->
  Server._process_request self (VDict d)
  = reply_of (Server.apply_params f (request_params d)).
Proof.
  intros Hm Hf. unfold Server._process_request, py_get, request_params.
  rewrite Hm. cbn. unfold Server.resolve. cbn. rewrite Hf. cbn.
  destruct (Server.apply_params f _) as [result|e]; reflexivity.
Qed.

(** The three envelopes [_process_request] can return. *)
Lemma process_request_cases (self : Server.t) (request response : value) :
  Server._process_request self request = Returns response ->
  (exists result, response = success_envelope result)
  \/ (exists text, response = VDict [(VStr "error", VStr text)])
  \/ (exists e, response = Server.error_response e).
Proof.
  unfold Server._process_request, try_except_Exception.
  destruct (_ ≫= _) as [r|e] eqn:Body.
  - intros [= <-]. revert Body.
    destruct request; cbn; try discriminate.
    unfold Server.resolve.
    destruct (hashable _); cbn; try discriminate.
    destruct (match _ with VStr name => _ | _ => None end) as [func|]; cbn.
    + destruct (Server.apply_params _ _); cbn; intros [= <-]. left. eauto.
    + intros [= <-]. right. left. eauto.
  - destruct (is_Exception e); [|discriminate].
    intros [= <-]. right. right. eauto.
Qed.

Lemma error_response_xor (e : exn) : result_xor_error (Server.error_response e).
Proof. reflexivity. Qed.

Lemma process_request_xor (self : Server.t) (request response : value) :
  Server._process_request self request = Returns response ->
  result_xor_error response.
Proof.
  intros Hr. apply process_request_cases in Hr.
  destruct Hr as [[r ->]|[[text ->]|[e ->]]]; reflexivity.
Qed.

(** Every message [answer] sends is the encoding of an envelope that
    [_process_request] returned for the decoded request, or of the
    [except] handler's envelope; and it sends at most one. *)
Lemma answer_cases (self : Server.t) (send : sender) (data : bytes)
    (sent : list bytes) (raised : option exn) :
  Server.answer self send data = (sent, raised) ->
  sent = []
  \/ exists msg envelope,
       sent = [msg] /\ packb envelope = Returns msg /\ send msg = Returns ()
       /\ ((exists request, unpackb data = Returns request
              /\ Server._process_request self request = Returns envelope)
           \/ exists e, envelope = Server.error_response e).
Proof.
  unfold Server.answer.
  assert (Herr : forall e,
    (if is_Exception e then
       match packb (Server.error_response e) with
       | Returns error_data =>
           match send error_data with
           | Returns _ => ([error_data], None)
           | Raises e' => ([], Some e')
           end
       | Raises e' => ([], Some e')
       end
     else ([], Some e)) = (sent, raised) ->
    sent = []
    \/ exists msg envelope,
         sent = [msg] /\ packb envelope = Returns msg /\ send msg = Returns ()
         /\ ((exists request, unpackb data = Returns request
                /\ Server._process_request self request = Returns envelope)
             \/ exists e, envelope = Server.error_response e)).
  { intros e. destruct (is_Exception e); [|intros [= <- _]; now left].
    destruct (packb (Server.error_response e)) as [m|] eqn:Hp;
      [|intros [= <- _]; now left].
    destruct (send m) as [[]|] eqn:Hs; intros [= <- _]; [|now left].
    right. exists m, (Server.error_response e). eauto 10. }
  destruct (unpackb data) as [request|e] eqn:Hu; cbn; [|apply Herr].
  destruct (Server._process_request self request) as [response|e] eqn:Hr;
    cbn; [|apply Herr].
  destruct (packb response) as [m|e] eqn:Hp; [|apply Herr].
  destruct (send m) as [[]|e] eqn:Hs; [|apply Herr].
  intros [= <- _]. right. exists m, response. eauto 10.
Qed.

(** C1.  A call with positional arguments round-trips: the request the
    client builds for [call(m, *a)], processed by [_process_request] on a
    server where [m] is bound to [f], gives a response from which the
    client extracts exactly the value that [f] returns on [a]. *)
Theorem call_round_trip (self : Server.t) (m : string) (f : callable)
    (a : list value) (v : value) :
  Server.functions self !! m = Some f ->
  f a [] = Returns v ->
  (response ← Server._process_request self (Client.build_request m a []);
   Client.check_response response) = Returns (mkRPCResult v)
  /\ (response ← Server._process_request self (Client.build_request m a []);
      result ← Client.check_response response;
      mret (get result)) = Returns v.
Proof.
  intros Hf Hv.
  assert (Hp : Server._process_request self (Client.build_request m a [])
               = Returns (success_envelope v)).
  { unfold Client.build_request.
    rewrite (process_request_bound self _ m f); [|reflexivity|exact Hf].
    replace (Client.build_params a []) with (VList a) by now destruct a.
    cbn. now rewrite Hv. }
  rewrite Hp. split; reflexivity.
Qed.

(** C2.  Every response envelope of the server has [result] or [error]
    and not both: the envelopes [_process_request] returns, the envelope of
    the handler's own [except] clause, and so every message the handler
    puts on the wire is the encoding of such an envelope. *)
Theorem response_result_xor_error (self : Server.t) :
  (forall request response,
      Server._process_request self request = Returns response ->
      result_xor_error response)
  /\ (forall e, result_xor_error (Server.error_response e))
  /\ (forall send data sent raised msg,
        Server.answer self send data = (sent, raised) ->
        msg ∈ sent ->
        exists envelope, packb envelope = Returns msg /\ result_xor_error envelope).
Proof.
  split; [apply process_request_xor|]. split; [apply error_response_xor|].
  intros send data sent raised msg Ha Hin.
  apply answer_cases in Ha. destruct Ha as [->|(m & envelope & -> & Hp & _ & Hfrom)].
  - inversion Hin.
  - apply list_elem_of_singleton in Hin. subst msg. exists envelope.
    split; [exact Hp|].
    destruct Hfrom as [(request & _ & Hr)|[e ->]].
    + eapply process_request_xor, Hr.
    + apply error_response_xor.
Qed.

(** C5.  How the server hands the parameters to the function a request
    names: a list is spread over the positional arguments in order, a
    mapping of names becomes the keyword arguments, and any other value is
    the one positional argument; the reply reports what that call did.  A
    mapping with a key that is not a [str] cannot be spread over keywords:
    the call itself raises [TypeError], which is reported. *)
Theorem params_dispatch (self : Server.t) (m : string) (f : callable) :
  Server.functions self !! m = Some f ->
  (forall l, Server.apply_params f (VList l) = f l []
             /\ Server._process_request self
                  (VDict [(VStr "method", VStr m); (VStr "params", VList l)])
                = reply_of (f l []))
  /\ (forall kw, Server.apply_params f (kwargs_dict kw) = f [] kw
                 /\ Server._process_request self
                      (VDict [(VStr "method", VStr m); (VStr "params", kwargs_dict kw)])
                    = reply_of (f [] kw))
  /\ (forall p, scalar p ->
                Server.apply_params f p = f [p] []
                /\ Server._process_request self
                     (VDict [(VStr "method", VStr m); (VStr "params", p)])
                   = reply_of (f [p] []))
  /\ (forall d, keywords d = None ->
                Server._process_request self
                  (VDict [(VStr "method", VStr m); (VStr "params", VDict d)])
                = Returns (Server.error_response
                             (Exn TypeError "keywords must be strings"))).
Proof.
  intros Hf.
  assert (Hreq : forall p,
    Server._process_request self (VDict [(VStr "method", VStr m); (VStr "params", p)])
    = reply_of (Server.apply_params f p)).
  { intros p. now rewrite (process_request_bound self _ m f). }
  assert (Hkw : forall kw, Server.apply_params f (kwargs_dict kw) = f [] kw).
  { intros kw. unfold kwargs_dict. cbn. now rewrite keywords_kwargs. }
  assert (Hsc : forall p, scalar p -> Server.apply_params f p = f [p] []).
  { intros p Hp. destruct p; try reflexivity; contradiction. }
  split; [|split; [|split]].
  - intros l. split; [reflexivity|]. now rewrite Hreq.
  - intros kw. split; [apply Hkw|]. now rewrite Hreq, Hkw.
  - intros p Hp. split; [now apply Hsc|]. now rewrite Hreq, Hsc.
  - intros d Hd. rewrite Hreq. cbn. now rewrite Hd.
Qed.
End Protocol.

(** C4.  The parameters the client sends: with positional and keyword
    arguments, the positional ones in order followed by the keyword mapping
    as one last element; with keyword arguments only, the mapping itself;
    otherwise the sequence of positional arguments, which may be empty.  The
    request carries them under [params], next to the method name. *)
Theorem client_params_shape (m : string) (a : value) (args : list value)
    (k : string * value) (kwargs : list (string * value)) :
  Client.build_params (a :: args) (k :: kwargs)
  = VList ((a :: args) ++ [kwargs_dict (k :: kwargs)])
  /\ Client.build_params [] (k :: kwargs) = kwargs_dict (k :: kwargs)
  /\ Client.build_params (a :: args) [] = VList (a :: args)
  /\ Client.build_params [] [] = VList []
  /\ (forall args' kwargs',
        py_get (Client.build_request m args' kwargs') "params" VNone
        = Returns (Client.build_params args' kwargs')
        /\ py_get (Client.build_request m args' kwargs') "method" VNone
          = Returns (VStr m)).
Proof. repeat split; reflexivity. Qed.

Section Handlers.
Context `{PyRuntime} `{Codec}.

(** A handler of a running server that reads a request, processes it and
    sends the encoded envelope is then waiting for the next request. *)
Lemma handler_answers (self : Server.t) (c : Server.conn) (data msg : bytes)
    (request envelope : value) :
  Server.c_open c = true ->
  Server.running self = true ->
  data <> [] ->
  unpackb data = Returns request ->
  Server._process_request self request = Returns envelope ->
  packb envelope = Returns msg ->
  Server.c_send c msg = Returns () ->
  Server._handle_client_recv self c (Returns data) = answered c msg.
Proof.
  intros Ho Hrun Hd Hu Hr Hp Hs.
  unfold Server._handle_client_recv, Server.answer.
  rewrite Ho, Hu. cbn. rewrite Hr. cbn. rewrite Hp, Hs, Hrun.
  destruct data; [contradiction|reflexivity].
Qed.

(** The same handler when the server has been stopped: it answers, leaves
    its loop and closes the connection. *)
Lemma handler_answers_stopped (self : Server.t) (c : Server.conn) (data msg : bytes)
    (request envelope : value) :
  Server.c_open c = true ->
  Server.running self = false ->
  data <> [] ->
  unpackb data = Returns request ->
  Server._process_request self request = Returns envelope ->
  packb envelope = Returns msg ->
  Server.c_send c msg = Returns () ->
  Server._handle_client_recv self c (Returns data) = Server.finish c [msg] None.
Proof.
  intros Ho Hrun Hd Hu Hr Hp Hs.
  unfold Server._handle_client_recv, Server.answer.
  rewrite Ho, Hu. cbn. rewrite Hr. cbn. rewrite Hp, Hs, Hrun.
  destruct data; [contradiction|reflexivity].
Qed.


(** A closed connection is never touched again. *)
Lemma closed_conn_step (w : Server.world) (i : nat) (c : Server.conn) (ev : Server.event) :
  Server.conns w !! i = Some c ->
  Server.c_open c = false ->
  Server.conns (Server.step w ev) !! i = Some c.
Proof.
  intros Hi Hc. destruct ev as [|send|e|j r]; cbn.
  - exact Hi.
  - destruct (Server.accepting w); [|exact Hi].
    unfold Server.accept_done.
    destruct (Server.running (Server.server w)); cbn;
      (rewrite lookup_app_l; [exact Hi|]; eapply lookup_lt_Some, Hi).
  - destruct (Server.accepting w); exact Hi.
  - destruct (Server.conns w !! j) as [cj|] eqn:Hj; cbn; [|exact Hi].
    destruct (decide (j = i)) as [->|Hne].
    + rewrite Hi in Hj. injection Hj as <-.
      unfold Server._handle_client_recv. rewrite Hc.
      now rewrite list_insert_id.
    + now rewrite list_lookup_insert_ne.
Qed.

Lemma closed_conn_stable (evs : list Server.event) (w : Server.world) (i : nat)
    (c : Server.conn) :
  Server.conns w !! i = Some c ->
  Server.c_open c = false ->
  Server.conns (Server.run_events w evs) !! i = Some c.
Proof.
  revert w. induction evs as [|ev evs IH]; intros w Hi Hc; [exact Hi|].
  cbn. apply IH; [|exact Hc]. now apply closed_conn_step.
Qed.
End Handlers.

Section Failures.
Context `{PyRuntime} `{Codec}.

(** C6, as amended.  A request that names a method absent from the
    dispatch table is answered by a failure envelope whose error text
    contains the name, and the handler sends it without raising.  Whether
    the connection stays open afterwards is decided by the loop test alone:
    the handler of a running server goes on waiting for the next request;
    after [stop] it has sent the reply and closes the connection. *)
Theorem unknown_method_reported (self : Server.t) (d : list (value * value))
    (name : string) :
  dict_lookup "method" d = Some (VStr name) ->
  Server.functions self !! name = None ->
  Server._process_request self (VDict d) = Returns (not_found_envelope name)
  /\ (exists text,
        not_found_envelope name = VDict [(VStr "error", VStr text)]
        /\ str_contains name text = true)
  /\ (forall c data msg,
        Server.c_open c = true ->
        data <> [] ->
        unpackb data = Returns (VDict d) ->
        packb (not_found_envelope name) = Returns msg ->
        Server.c_send c msg = Returns () ->
        Server._handle_client_recv self c (Returns data)
        = if Server.running self then answered c msg
          else Server.finish c [msg] None).
Proof.
  intros Hm Hf.
  assert (Hp : Server._process_request self (VDict d)
               = Returns (not_found_envelope name)).
  { unfold Server._process_request, py_get. rewrite Hm. cbn.
    unfold Server.resolve. cbn. now rewrite Hf. }
  split; [exact Hp|]. split.
  - eexists. split; [reflexivity|]. apply str_contains_app.
  - intros c data msg Ho Hd Hu Hpk Hs.
    destruct (Server.running self) eqn:Hrun.
    + now apply (handler_answers self c data msg (VDict d) (not_found_envelope name)).
    + now apply (handler_answers_stopped self c data msg (VDict d)
                   (not_found_envelope name)).
Qed.

(** C7, as amended.  When the call of a bound function raises an
    exception that is an instance of [Exception], [_process_request]
    returns the failure envelope with the exception's text under [error]
    and the trace under [traceback]; a running handler sends it and goes
    on waiting for the next request. *)
Theorem raised_Exception_reported (self : Server.t) (d : list (value * value))
    (name : string) (f : callable) (e : exn) :
  dict_lookup "method" d = Some (VStr name) ->
  Server.functions self !! name = Some f ->
  Server.apply_params f (request_params d) = Raises e ->
  is_Exception e = true ->
  Server._process_request self (VDict d) = Returns (Server.error_response e)
  /\ py_getitem (Server.error_response e) "error" = Returns (VStr (exn_str e))
  /\ py_getitem (Server.error_response e) "traceback" = Returns (VStr (format_exc e))
  /\ (forall c data msg,
        Server.c_open c = true ->
        Server.running self = true ->
        data <> [] ->
        unpackb data = Returns (VDict d) ->
        packb (Server.error_response e) = Returns msg ->
        Server.c_send c msg = Returns () ->
        Server._handle_client_recv self c (Returns data) = answered c msg).
Proof.
  intros Hm Hf Hcall He.
  assert (Hp : Server._process_request self (VDict d)
               = Returns (Server.error_response e)).
  { rewrite (process_request_bound self d name f Hm Hf), Hcall.
    cbn. now rewrite He. }
  repeat split; try exact Hp; try reflexivity.
  intros c data msg Ho Hrun Hd Hu Hpk Hs.
  now apply (handler_answers self c data msg (VDict d) (Server.error_response e)).
Qed.


(** C10.  What [call] makes of a decoded response that is a mapping: with
    the key [error] present it raises, whether or not [result] is present
    too; without it, the wrapper holds the value under [result], or [None]
    when that key is missing as well. *)
Theorem call_error_takes_precedence (self : Client.t) (s : Client.sock)
    (m : string) (args : list value) (kwargs : list (string * value))
    (request_data response_data : bytes) (d : list (value * value)) :
  Client.socket self = Some s ->
  packb (Client.build_request m args kwargs) = Returns request_data ->
  Client.send s request_data = Returns () ->
  Client.recv s = Returns response_data ->
  unpackb response_data = Returns (VDict d) ->
  (dict_has "error" d = true ->
     exists text, Client.call self m args kwargs = raise RuntimeError text)
  /\ (dict_has "error" d = false ->
       Client.call self m args kwargs
       = Returns (mkRPCResult (match dict_lookup "result" d with
                               | Some x => x
                               | None => VNone
                               end)))
  /\ (forall text,
       dict_lookup "error" d = Some (VStr text) ->
       dict_has "traceback" d = false ->
       Client.call self m args kwargs
       = raise RuntimeError ("Call failed: Remote call failed: " +:+ text)).
Proof.
  intros Hsock Hpk Hsend Hrecv Hun.
  assert (Hcall : Client.call self m args kwargs
                  = Client.call_except (Client.check_response (VDict d))).
  { unfold Client.call. rewrite Hsock, Hpk. cbn. rewrite Hsend. cbn.
    rewrite Hrecv. cbn. now rewrite Hun. }
  rewrite Hcall. unfold Client.check_response. cbn. split; [|split].
  - intros He. rewrite He. cbn. unfold dict_has in He.
    destruct (dict_lookup "error" d) as [x|]; [|discriminate]. cbn.
    destruct (dict_has "traceback" d); cbn; [|eexists; reflexivity].
    destruct (dict_lookup "traceback" d) as [tb|]; cbn; [|eexists; reflexivity].
    destruct x; cbn; eexists; reflexivity.
  - intros He. rewrite He. reflexivity.
  - intros text He Htb.
    assert (Hhas : dict_has "error" d = true) by (unfold dict_has; now rewrite He).
    rewrite Hhas. cbn. rewrite He. cbn. rewrite Htb. reflexivity.
Qed.

(** A call over the wire, when the codec round-trips the two envelopes and
    the client's [recv] delivers what the handler sent: the handler of a
    running server answers with the encoded result and waits for the next
    request, and [call] returns the wrapper of the value the function
    returned. *)
Lemma call_over_the_wire (srv : Server.t) (c : Server.conn) (self : Client.t)
    (s : Client.sock) (m : string) (f : callable) (a : list value) (v : value)
    (request_data response_data : bytes) :
  Server.functions srv !! m = Some f ->
  f a [] = Returns v ->
  packb (Client.build_request m a []) = Returns request_data ->
  request_data <> [] ->
  unpackb request_data = Returns (Client.build_request m a []) ->
  packb (success_envelope v) = Returns response_data ->
  unpackb response_data = Returns (success_envelope v) ->
  Server.c_open c = true ->
  Server.running srv = true ->
  Server.c_send c response_data = Returns () ->
  Client.socket self = Some s ->
  Client.send s request_data = Returns () ->
  Client.recv s = Returns response_data ->
  Server._handle_client_recv srv c (Returns request_data) = answered c response_data
  /\ Client.call self m a [] = Returns (mkRPCResult v).
Proof.
  intros Hf Hv Hpk Hne Hun Hpk' Hun' Ho Hrun Hs Hsock Hsend Hrecv.
  assert (Hp : Server._process_request srv (Client.build_request m a [])
               = Returns (success_envelope v)).
  { unfold Client.build_request.
    rewrite (process_request_bound srv _ m f); [|reflexivity|exact Hf].
    replace (Client.build_params a []) with (VList a) by now destruct a.
    cbn. now rewrite Hv. }
  split.
  - now apply (handler_answers srv c request_data response_data
                 (Client.build_request m a []) (success_envelope v)).
  - unfold Client.call. rewrite Hsock, Hpk. cbn. rewrite Hsend. cbn.
    rewrite Hrecv. cbn. rewrite Hun'. reflexivity.
Qed.
End Failures.

(** C8.  [close] is idempotent.  On a client that is already closed it
    returns, changes nothing and closes nothing.  Calling it twice in a row
    does what calling it once does, the second call closing nothing: a
    [close] that returned has left the client without a socket, and the
    second call finds it so.  The only exception [close] can raise is one
    raised by closing the socket itself, on the first call. *)
Theorem close_idempotent (self : Client.t) :
  (Client.socket self = None -> Client.close self = Returns (self, []))
  /\ (r ← Client.close self; Client.close (fst r))
     = (r ← Client.close self; mret (fst r, []))
  /\ (forall self' closed,
        Client.close self = Returns (self', closed) ->
        Client.socket self' = None /\ Client.close self' = Returns (self', []))
  /\ (forall s,
        Client.socket self = Some s ->
        Client.shut s = Returns () ->
        Client.close self
        = Returns (Client.mk (Client.host self) (Client.port self) None, [s])).
Proof.
  unfold Client.close. split; [|split; [|split]].
  - intros ->. reflexivity.
  - destruct (Client.socket self) as [s|] eqn:Hs; cbn.
    + destruct (Client.shut s) as [[]|e]; reflexivity.
    + now rewrite Hs.
  - intros self' closed. destruct (Client.socket self) as [s|] eqn:Hs; cbn.
    + destruct (Client.shut s) as [[]|e]; cbn; [|discriminate].
      intros [= <- <-]. split; reflexivity.
    + intros [= <- <-]. rewrite Hs. split; reflexivity.
  - intros s -> ->. reflexivity.
Qed.

Section Conversions.
Context `{PyRuntime}.


End Conversions.

(** * The theorems on the sample server *)

(** C1 on the sample server: [add(2, 3)]. *)
Lemma call_round_trip_add :
  (response ← Server._process_request Sample.srv
                (Client.build_request "add" [VInt 2; VInt 3] []);
   Client.check_response response) = Returns (mkRPCResult (VInt 5))
  /\ (response ← Server._process_request Sample.srv
                   (Client.build_request "add" [VInt 2; VInt 3] []);
      result ← Client.check_response response;
      mret (get result)) = Returns (VInt 5).
Proof.
  apply (call_round_trip Sample.srv "add" Sample.add [VInt 2; VInt 3] (VInt 5));
    reflexivity.
Defined.

(** C2 on the sample server: the message the handler sends in answer to a
    call of [greet] with a keyword argument. *)
Lemma response_result_xor_error_greet :
  exists envelope,
    packb envelope = Returns (Sample.bytes_of (success_envelope (VStr "Hello, World!")))
    /\ result_xor_error envelope.
Proof.
  apply (proj2 (proj2 (response_result_xor_error Sample.srv))
           Sample.send_ok
           (Sample.request_bytes "greet" [] [("name", VStr "World")])
           [Sample.bytes_of (success_envelope (VStr "Hello, World!"))] None).
  - vm_compute. reflexivity.
  - constructor.
Defined.

(** C5 on the sample server: [greet] called with a mapping of names. *)
Lemma params_dispatch_greet :
  Server._process_request Sample.srv
    (VDict [(VStr "method", VStr "greet");
            (VStr "params", kwargs_dict [("name", VStr "World")])])
  = reply_of (Sample.greet [] [("name", VStr "World")]).
Proof.
  apply (proj1 (proj2 (params_dispatch Sample.srv "greet" Sample.greet eq_refl))
           [("name", VStr "World")]).
Defined.

(** C6, as amended, on the sample server while it runs: a call of
    [missing]. *)
Lemma unknown_method_reported_missing :
  Server._handle_client_recv Sample.running_srv Sample.conn0
    (Returns (Sample.request_bytes "missing" [] []))
  = answered Sample.conn0 (Sample.bytes_of (not_found_envelope "missing")).
Proof.
  refine (proj2 (proj2 (unknown_method_reported Sample.running_srv
                          [(VStr "method", VStr "missing"); (VStr "params", VList [])]
                          "missing" _ _))
            Sample.conn0 (Sample.request_bytes "missing" [] [])
            (Sample.bytes_of (not_found_envelope "missing")) _ _ _ _ _);
    try reflexivity.
  vm_compute. discriminate.
Defined.

(** The claim C6 fails on a server that has been stopped.  The request
    for the unbound [missing] is answered with the failure envelope, but the
    handler then finds [self.running] false, leaves its loop and closes the
    connection. *)
Lemma unknown_method_then_closed :
  Server.functions (Server.stop Sample.running_srv) !! "missing" = None
  /\ Server._process_request (Server.stop Sample.running_srv)
       (Client.build_request "missing" [] [])
     = Returns (not_found_envelope "missing")
  /\ Server._handle_client_recv (Server.stop Sample.running_srv) Sample.conn0
       (Returns (Sample.request_bytes "missing" [] []))
     = {| Server.c_send := Sample.send_ok; Server.c_open := false;
          Server.c_sent := [Sample.bytes_of (not_found_envelope "missing")];
          Server.c_escaped := None |}
  /\ Server.conns
       (Server.run_events Sample.world1
          [Server.EvStop;
           Server.EvRecv 0 (Returns (Sample.request_bytes "missing" [] []))])
       !! 0%nat
     = Some {| Server.c_send := Sample.send_ok; Server.c_open := false;
               Server.c_sent := [Sample.bytes_of (not_found_envelope "missing")];
               Server.c_escaped := None |}.
Proof. repeat split; vm_compute; reflexivity. Qed.

(** C7, as amended, on the sample server: a call of [boom]. *)
Lemma raised_Exception_reported_boom :
  Server._process_request Sample.running_srv (Client.build_request "boom" [] [])
  = Returns (Server.error_response (Exn ValueError "bad input"))
  /\ Server._handle_client_recv Sample.running_srv Sample.conn0
       (Returns (Sample.request_bytes "boom" [] []))
     = answered Sample.conn0
         (Sample.bytes_of (Server.error_response (Exn ValueError "bad input"))).
Proof.
  pose proof (raised_Exception_reported Sample.running_srv
                [(VStr "method", VStr "boom"); (VStr "params", VList [])]
                "boom" Sample.boom (Exn ValueError "bad input")
                eq_refl eq_refl eq_refl eq_refl) as (Hp & _ & _ & Hh).
  split; [exact Hp|].
  apply Hh; try reflexivity.
  vm_compute. discriminate.
Defined.

(** The claim C7 fails for a function that raises [SystemExit], which is
    not an instance of [Exception]: [_process_request] raises instead of
    returning an envelope, and the handler sends nothing, closes the
    connection and ends with that exception. *)
Lemma SystemExit_is_not_reported :
  Server.functions Sample.running_srv !! "quit" = Some Sample.quit
  /\ Sample.quit [] [] = raise SystemExit "0"
  /\ Server._process_request Sample.running_srv (Client.build_request "quit" [] [])
     = raise SystemExit "0"
  /\ Server._handle_client_recv Sample.running_srv Sample.conn0
       (Returns (Sample.request_bytes "quit" [] []))
     = {| Server.c_send := Sample.send_ok; Server.c_open := false;
          Server.c_sent := []; Server.c_escaped := Some (Exn SystemExit "0") |}.
Proof. repeat split; vm_compute; reflexivity. Qed.



(** C8 on the sample client: the client after [close], and [close] on it. *)
Lemma close_idempotent_sample :
  Client.socket (Client.mk "127.0.0.1" 8080 None) = None
  /\ Client.close (Client.mk "127.0.0.1" 8080 None)
     = Returns (Client.mk "127.0.0.1" 8080 None, []).
Proof.
  exact (proj1 (proj2 (proj2 (close_idempotent (Sample.client VNone))))
           (Client.mk "127.0.0.1" 8080 None) [Sample.sock VNone] eq_refl).
Defined.

(** [add(2, 3)] over the wire with the sample codec. *)
Example add_over_the_wire :
  Server._handle_client_recv Sample.running_srv Sample.conn0
    (Returns (Sample.request_bytes "add" [VInt 2; VInt 3] []))
  = answered Sample.conn0 (Sample.bytes_of (success_envelope (VInt 5)))
  /\ Client.call (Sample.client (success_envelope (VInt 5))) "add" [VInt 2; VInt 3] []
     = Returns (mkRPCResult (VInt 5)).
Proof.
  apply (call_over_the_wire Sample.running_srv Sample.conn0
           (Sample.client (success_envelope (VInt 5)))
           (Sample.sock (success_envelope (VInt 5)))
           "add" Sample.add [VInt 2; VInt 3] (VInt 5)
           (Sample.request_bytes "add" [VInt 2; VInt 3] [])
           (Sample.bytes_of (success_envelope (VInt 5))));
    try reflexivity.
  vm_compute. discriminate.
Qed.

(** C10 on the sample client: a response that carries both keys. *)
Lemma call_error_takes_precedence_both_keys :
  Client.call
    (Sample.client (VDict [(VStr "result", VInt 5); (VStr "error", VStr "oops")]))
    "add" [VInt 2; VInt 3] []
  = raise RuntimeError "Call failed: Remote call failed: oops".
Proof.
  refine (proj2 (proj2 (call_error_takes_precedence
            (Sample.client (VDict [(VStr "result", VInt 5); (VStr "error", VStr "oops")]))
            (Sample.sock (VDict [(VStr "result", VInt 5); (VStr "error", VStr "oops")]))
            "add" [VInt 2; VInt 3] []
            (Sample.request_bytes "add" [VInt 2; VInt 3] [])
            (Sample.bytes_of (VDict [(VStr "result", VInt 5); (VStr "error", VStr "oops")]))
            [(VStr "result", VInt 5); (VStr "error", VStr "oops")]
            _ _ _ _ _)) "oops" _ _);
    reflexivity.
Defined.

(** Bytes that do not decode: the handler answers with the envelope of its
    own [except] clause and goes on. *)
Example undecodable_request_answered :
  Server._handle_client_recv Sample.running_srv Sample.conn0 (Returns [Byte.xc1])
  = answered Sample.conn0
      (Sample.bytes_of
         (Server.error_response (Exn ValueError "Unpack failed: incomplete input"))).
Proof. vm_compute. reflexivity. Qed.

(** The parameters of [call("f", 1, 2, k=3)], [call("f", k=3)] and
    [call("f")]. *)
Example build_params_samples :
  Client.build_params [VInt 1; VInt 2] [("k", VInt 3)]
  = VList [VInt 1; VInt 2; VDict [(VStr "k", VInt 3)]]
  /\ Client.build_params [] [("k", VInt 3)] = VDict [(VStr "k", VInt 3)]
  /\ Client.build_params [] [] = VList [].
Proof. repeat split; reflexivity. Qed.

(** Conversions of some results. *)
Example conversions_samples :
  as_int (mkRPCResult (VStr "-12")) = Returns (-12)%Z
  /\ as_int (mkRPCResult (VStr "twelve"))
     = raise ValueError "invalid literal for int() with base 10: 'twelve'"
  /\ as_list (mkRPCResult (VInt 5)) = raise TypeError "'int' object is not iterable"
  /\ as_list (mkRPCResult (VStr "ab")) = Returns [VStr "a"; VStr "b"]
  /\ as_dict (mkRPCResult (VList [VList [VInt 1; VStr "x"]; VList [VBool true; VStr "y"]]))
     = Returns [(VInt 1, VStr "y")]
  /\ as_dict (mkRPCResult (VStr "ab"))
     = raise ValueError
         "dictionary update sequence element #0 has length 1; 2 is required"
  /\ as_bool (mkRPCResult (VList [])) = Returns false
  /\ as_float (mkRPCResult (VInt (2 ^ 53 + 1)))
     = Returns (S754_finite false 4503599627370496 1).
Proof. repeat split; vm_compute; reflexivity. Qed.

(** * Further properties of the server *)

Section Dispatch.
Context `{PyRuntime} `{Codec}.

(** Binding [name] does not change how any other method name resolves. *)
Lemma resolve_bind_other (self : Server.t) (name : string) (f : callable) (mv : value) :
  mv <> VStr name ->
  Server.resolve (Server.bind self name f) mv = Server.resolve self mv.
Proof.
  intros Hne. unfold Server.resolve, Server.bind. cbn.
  destruct mv; try reflexivity. cbn.
  rewrite lookup_insert_ne; [reflexivity|]. congruence.
Qed.

(** X1.  After [bind(name, f)] a request that names [name] is dispatched to
    [f], whatever was bound to the name before; binding the name again
    replaces the entry; and every request that does not name [name] is
    processed exactly as before the binding. *)
Theorem bind_then_dispatch (self : Server.t) (name : string) (f g : callable)
    (d : list (value * value)) :
  dict_lookup "method" d = Some (VStr name) ->
  Server._process_request (Server.bind self name f) (VDict d)
  = reply_of (Server.apply_params f (request_params d))
  /\ Server._process_request (Server.bind (Server.bind self name g) name f) (VDict d)
     = reply_of (Server.apply_params f (request_params d))
  /\ (forall request,
        ~ names_method request name ->
        Server._process_request (Server.bind self name f) request
        = Server._process_request self request).
Proof.
  intros Hm. split; [|split].
  - apply (process_request_bound _ d name f Hm). cbn. apply lookup_insert_eq.
  - apply (process_request_bound _ d name f Hm). cbn. apply lookup_insert_eq.
  - intros request Hn. unfold Server._process_request.
    destruct request as [| | | | | | |d']; try reflexivity.
    cbn [py_get mbind outcome_bind].
    assert (Hmv : forall mv, (match dict_lookup "method" d' with
                              | Some x => x | None => VNone end) = mv ->
                             mv <> VStr name).
    { intros mv <- Heq. apply Hn. exists d'. split; [reflexivity|].
      destruct (dict_lookup "method" d'); [congruence|discriminate]. }
    rewrite resolve_bind_other; [reflexivity|]. now apply Hmv.
Qed.

(** X2.  A request that is not a mapping is answered, not raised: the reply
    is the failure envelope of the [AttributeError] that [request.get]
    raises, with its trace, whatever the dispatch table holds. *)
Theorem non_mapping_request_reported (self : Server.t) (request : value) :
  (forall d, request <> VDict d) ->
  Server._process_request self request
  = Returns (Server.error_response
               (Exn AttributeError
                  ("'" +:+ type_name request +:+ "' object has no attribute 'get'"))).
Proof.
  intros Hnd. destruct request; try reflexivity. now destruct (Hnd d).
Qed.

(** X3.  A request whose [method] is not text never reaches a function.  A
    list or a dictionary cannot be looked up in the table: the reply is the
    failure envelope of the [TypeError].  Any other value is reported as a
    method that is not found, under its [str()]. *)
Theorem non_string_method_reported (self : Server.t) (d : list (value * value))
    (mv : value) :
  dict_lookup "method" d = Some mv ->
  (forall name, mv <> VStr name) ->
  Server._process_request self (VDict d)
  = if hashable mv then
      Returns (VDict [(VStr "error", VStr ("Method '" +:+ py_str mv +:+ "' not found"))])
    else
      Returns (Server.error_response
                 (Exn TypeError ("unhashable type: '" +:+ type_name mv +:+ "'"))).
Proof.
  intros Hm Hns. unfold Server._process_request, py_get. rewrite Hm. cbn.
  unfold Server.resolve.
  destruct mv; try reflexivity. now destruct (Hns s).
Qed.

(** X4.  The defaults of the two keys.  A request without [method] is
    reported as the method [None] not found, whatever is bound; a request
    without [params] that names a bound function calls it with no argument
    at all. *)
Theorem absent_keys_default (self : Server.t) (d : list (value * value)) :
  (dict_lookup "method" d = None ->
   Server._process_request self (VDict d) = Returns (not_found_envelope "None"))
  /\ (forall name f,
        dict_lookup "method" d = Some (VStr name) ->
        dict_lookup "params" d = None ->
        Server.functions self !! name = Some f ->
        Server._process_request self (VDict d) = reply_of (f [] [])).
Proof.
  split.
  - intros Hm. unfold Server._process_request, py_get. now rewrite Hm.
  - intros name f Hm Hp Hf.
    rewrite (process_request_bound self d name f Hm Hf).
    unfold request_params. now rewrite Hp.
Qed.

(** X5.  [_process_request] raises only what a bound function raised, and
    only when that is not an instance of [Exception]: every other failure,
    of the request or of the call, comes back as an envelope. *)
Theorem process_request_raises_only_BaseException (self : Server.t)
    (request : value) (e : exn) :
  Server._process_request self request = Raises e ->
  is_Exception e = false
  /\ exists d name f args kwargs,
       request = VDict d
       /\ dict_lookup "method" d = Some (VStr name)
       /\ Server.functions self !! name = Some f
       /\ f args kwargs = Raises e.
Proof.
  unfold Server._process_request, try_except_Exception.
  destruct (_ ≫= _) as [r|e0] eqn:Body; [discriminate|].
  destruct (is_Exception e0) eqn:He; [discriminate|].
  intros [= ->]. split; [exact He|].
  destruct request as [| | | | | | |d]; cbn in Body;
    try (injection Body as <-; discriminate He).
  unfold py_get in Body. cbn in Body.
  destruct (dict_lookup "method" d) as [mv|] eqn:Hm; cbn in Body;
    [|discriminate Body].
  unfold Server.resolve in Body.
  destruct mv; cbn in Body;
    try discriminate Body; try (injection Body as <-; discriminate He).
  destruct (Server.functions self !! s) as [f|] eqn:Hf; cbn in Body;
    [|discriminate Body].
  destruct (Server.apply_params f _) as [v|e1] eqn:Hcall; cbn in Body;
    [discriminate Body|]. injection Body as ->.
  exists d, s, f.
  unfold Server.apply_params in Hcall.
  destruct (match dict_lookup "params" d with Some x => x | None => VList [] end)
    as [| | | | | |l|kd]; try (eexists _, _; repeat split; eassumption).
  destruct (keywords kd) as [kw|].
  - eexists _, _; repeat split; eassumption.
  - injection Hcall as <-. discriminate He.
Qed.
End Dispatch.

Section Connections.
Context `{PyRuntime} `{Codec}.

(** [answer] sends one message and raises nothing, or sends nothing and
    raises. *)
Lemma answer_one_or_raise (self : Server.t) (send : sender) (data : bytes) :
  (exists msg, Server.answer self send data = ([msg], None) /\ send msg = Returns ())
  \/ (exists e, Server.answer self send data = ([], Some e)).
Proof.
  unfold Server.answer.
  assert (Herr : forall e,
    let r := if is_Exception e then
               match packb (Server.error_response e) with
               | Returns error_data =>
                   match send error_data with
                   | Returns _ => ([error_data], None)
                   | Raises e' => ([], Some e')
                   end
               | Raises e' => ([], Some e')
               end
             else ([], Some e) in
    (exists msg, r = ([msg], None) /\ send msg = Returns ())
    \/ (exists e', r = ([], Some e'))).
  { intros e. cbn. destruct (is_Exception e); [|eauto].
    destruct (packb (Server.error_response e)) as [m|]; [|eauto].
    destruct (send m) as [[]|] eqn:Hs; eauto. }
  destruct (_ ≫= _) as [m|e]; [|apply Herr].
  destruct (send m) as [[]|e] eqn:Hs; [eauto|apply Herr].
Qed.

(** A read never takes back a message and never changes the socket. *)
Lemma handler_recv_extends (self : Server.t) (c : Server.conn) (r : outcome bytes) :
  Server.c_sent c `prefix_of` Server.c_sent (Server._handle_client_recv self c r)
  /\ Server.c_send (Server._handle_client_recv self c r) = Server.c_send c.
Proof.
  unfold Server._handle_client_recv.
  destruct (Server.c_open c); [|split; reflexivity].
  destruct r as [[|b data]|e]; cbn;
    try (split; [apply prefix_app_r; reflexivity|reflexivity]).
  destruct (Server.answer self (Server.c_send c) (b :: data)) as [sent [e|]];
    [cbn; split; [apply prefix_app_r; reflexivity|reflexivity]|].
  destruct (Server.running self); cbn;
    (split; [apply prefix_app_r; reflexivity|reflexivity]).
Qed.

(** Only a read on connection [i] can change connection [i]. *)
Lemma step_other_conn (w : Server.world) (i : nat) (c : Server.conn) (ev : Server.event) :
  Server.conns w !! i = Some c ->
  (forall r, ev <> Server.EvRecv i r) ->
  Server.conns (Server.step w ev) !! i = Some c.
Proof.
  intros Hi Hev. destruct ev as [|send|e|j r]; cbn.
  - exact Hi.
  - destruct (Server.accepting w); [|exact Hi].
    unfold Server.accept_done.
    destruct (Server.running (Server.server w)); cbn;
      (rewrite lookup_app_l; [exact Hi|]; eapply lookup_lt_Some, Hi).
  - destruct (Server.accepting w); exact Hi.
  - destruct (Server.conns w !! j) as [cj|] eqn:Hj; cbn; [|exact Hi].
    rewrite list_lookup_insert_ne; [exact Hi|].
    intros ->. now apply (Hev r).
Qed.

(** What one event does to a connection that exists. *)
Lemma step_conn (w : Server.world) (i : nat) (c : Server.conn) (ev : Server.event) :
  Server.conns w !! i = Some c ->
  Server.conns (Server.step w ev) !! i = Some c
  \/ exists r, Server.conns (Server.step w ev) !! i
               = Some (Server._handle_client_recv (Server.server w) c r).
Proof.
  intros Hi. destruct ev as [|send|e|j r].
  - left. apply step_other_conn; [exact Hi|discriminate].
  - left. apply step_other_conn; [exact Hi|discriminate].
  - left. apply step_other_conn; [exact Hi|discriminate].
  - destruct (decide (j = i)) as [->|Hne].
    + right. exists r. cbn. rewrite Hi. cbn.
      apply list_lookup_insert_eq. eapply lookup_lt_Some, Hi.
    + left. apply step_other_conn; [exact Hi|]. congruence.
Qed.

(** X6.  An empty read, and a read that fails with an instance of
    [Exception], end the connection for good: nothing is sent for it, the
    socket is closed, no exception leaves the handler, and whatever happens
    afterwards, on this connection or elsewhere, it stays as it is. *)
Theorem read_ends_connection (w : Server.world) (i : nat) (c : Server.conn)
    (r : outcome bytes) (evs : list Server.event) :
  Server.conns w !! i = Some c ->
  Server.c_open c = true ->
  r = Returns [] \/ (exists e, r = Raises e /\ is_Exception e = true) ->
  Server.conns (Server.run_events w (Server.EvRecv i r :: evs)) !! i
  = Some {| Server.c_send := Server.c_send c; Server.c_open := false;
            Server.c_sent := Server.c_sent c; Server.c_escaped := None |}.
Proof.
  intros Hi Ho Hr. cbn [Server.run_events fold_left].
  apply closed_conn_stable; [|reflexivity].
  cbn. rewrite Hi. cbn.
  rewrite list_lookup_insert_eq; [|eapply lookup_lt_Some, Hi].
  f_equal. unfold Server._handle_client_recv, Server.finish. rewrite Ho.
  destruct Hr as [->|(e & -> & He)]; cbn; rewrite ?He, app_nil_r; reflexivity.
Qed.

(** X7.  Bytes that do not decode are answered, not dropped: when
    [unpackb] raises an instance of [Exception], the handler of a running
    server sends the failure envelope of that exception and goes on waiting
    for the next request. *)
Theorem decode_failure_answered (self : Server.t) (c : Server.conn)
    (data msg : bytes) (e : exn) :
  Server.c_open c = true ->
  Server.running self = true ->
  data <> [] ->
  unpackb data = Raises e ->
  is_Exception e = true ->
  packb (Server.error_response e) = Returns msg ->
  Server.c_send c msg = Returns () ->
  Server._handle_client_recv self c (Returns data) = answered c msg.
Proof.
  intros Ho Hrun Hd Hu He Hp Hs.
  unfold Server._handle_client_recv, Server.answer.
  rewrite Ho, Hu. cbn. rewrite He, Hp, Hs, Hrun.
  destruct data; [contradiction|reflexivity].
Qed.

(** X8.  A result that cannot be encoded is reported too: when the
    function returned but [packb] raises an instance of [Exception] on the
    response, the handler sends the failure envelope of that exception
    instead and goes on waiting for the next request. *)
Theorem unencodable_result_answered (self : Server.t) (c : Server.conn)
    (data msg : bytes) (request response : value) (e : exn) :
  Server.c_open c = true ->
  Server.running self = true ->
  data <> [] ->
  unpackb data = Returns request ->
  Server._process_request self request = Returns response ->
  packb response = Raises e ->
  is_Exception e = true ->
  packb (Server.error_response e) = Returns msg ->
  Server.c_send c msg = Returns () ->
  Server._handle_client_recv self c (Returns data) = answered c msg.
Proof.
  intros Ho Hrun Hd Hu Hr Hpr He Hp Hs.
  unfold Server._handle_client_recv, Server.answer.
  rewrite Ho, Hu. cbn. rewrite Hr. cbn. rewrite Hpr, He, Hp, Hs, Hrun.
  destruct data; [contradiction|reflexivity].
Qed.

(** X9.  One request, one reply, or the end of the connection: for every
    non-empty read the handler of a running server either sends exactly one
    message, which the socket accepted, and keeps the connection open, or
    sends nothing and closes it.  It never answers twice and never skips a
    request silently while staying open. *)
Theorem one_reply_or_close (self : Server.t) (c : Server.conn) (data : bytes) :
  Server.c_open c = true ->
  Server.running self = true ->
  data <> [] ->
  (exists msg,
      Server._handle_client_recv self c (Returns data) = answered c msg
      /\ Server.c_send c msg = Returns ())
  \/ (exists e,
        Server._handle_client_recv self c (Returns data)
        = Server.finish c [] (Some e)).
Proof.
  intros Ho Hrun Hd. unfold Server._handle_client_recv. rewrite Ho.
  destruct data as [|b data]; [contradiction|].
  destruct (answer_one_or_raise self (Server.c_send c) (b :: data))
    as [(msg & -> & Hs)|(e & ->)].
  - left. exists msg. rewrite Hrun. split; [reflexivity|exact Hs].
  - right. exists e. reflexivity.
Qed.

(** X10.  A handler thread is ended by an exception only when that
    exception is not an instance of [Exception]: whatever a read brings,
    an exception recorded as having left the handler was there before or
    is such a one. *)
Theorem handler_contains_Exceptions (self : Server.t) (c : Server.conn)
    (r : outcome bytes) (e : exn) :
  Server.c_escaped (Server._handle_client_recv self c r) = Some e ->
  Server.c_escaped c = Some e \/ is_Exception e = false.
Proof.
  unfold Server._handle_client_recv, Server.finish.
  destruct (Server.c_open c); [|auto].
  assert (Hfin : forall raised,
    match raised with
    | Some e0 => if is_Exception e0 then None else Some e0
    | None => None
    end = Some e -> is_Exception e = false).
  { intros [e0|]; [|discriminate].
    destruct (is_Exception e0) eqn:He0; [discriminate|]. now intros [= <-]. }
  destruct r as [[|b data]|e0]; cbn.
  - discriminate.
  - destruct (Server.answer self (Server.c_send c) (b :: data)) as [sent [e1|]]; cbn.
    + intros Hx. right. exact (Hfin (Some e1) Hx).
    + destruct (Server.running self); cbn; [auto|discriminate].
  - intros Hx. right. exact (Hfin (Some e0) Hx).
Qed.
End Connections.

Section Listener.
Context `{PyRuntime} `{Codec}.

Lemma stop_stop (s : Server.t) : Server.stop (Server.stop s) = Server.stop s.
Proof. unfold Server.stop. cbn. now destruct (Server.server_socket s). Qed.


(** X11.  Connections do not interfere.  An event that is not a read on
    connection [i] leaves connection [i] exactly as it is, so no reply is
    ever written to another connection's log; and a read, whatever it
    brings and however its handler ends, changes neither the server, nor the
    accept loop, nor the number of connections. *)
Theorem connections_do_not_interfere (w : Server.world) (i : nat) (c : Server.conn) :
  Server.conns w !! i = Some c ->
  (forall ev, (forall r, ev <> Server.EvRecv i r) ->
              Server.conns (Server.step w ev) !! i = Some c)
  /\ (forall j r,
        Server.server (Server.step w (Server.EvRecv j r)) = Server.server w
        /\ Server.accepting (Server.step w (Server.EvRecv j r)) = Server.accepting w
        /\ length (Server.conns (Server.step w (Server.EvRecv j r)))
           = length (Server.conns w)).
Proof.
  intros Hi. split.
  - intros ev Hev. now apply step_other_conn.
  - intros j r. cbn. destruct (Server.conns w !! j); cbn;
      rewrite ?length_insert; auto.
Qed.

(** X12.  What was sent stays sent, and a connection never disappears:
    after any sequence of events connection [i] still exists, with the same
    socket, and the messages sent on it before are the first ones of those
    sent on it now, in the same order. *)
Theorem sent_log_only_grows (evs : list Server.event) (w : Server.world) (i : nat)
    (c : Server.conn) :
  Server.conns w !! i = Some c ->
  exists c',
    Server.conns (Server.run_events w evs) !! i = Some c'
    /\ Server.c_sent c `prefix_of` Server.c_sent c'
    /\ Server.c_send c' = Server.c_send c.
Proof.
  revert w c. induction evs as [|ev evs IH]; intros w c Hi.
  - exists c. cbn. repeat split; [exact Hi|reflexivity].
  - cbn [Server.run_events fold_left].
    destruct (step_conn w i c ev Hi) as [Hsame|[r Hrecv]].
    + apply IH, Hsame.
    + destruct (IH _ _ Hrecv) as (c' & Hc' & Hpre & Hsend).
      destruct (handler_recv_extends (Server.server w) c r) as [Hpre0 Hsend0].
      exists c'. split; [exact Hc'|]. split.
      * etransitivity; eassumption.
      * now rewrite Hsend.
Qed.





(** X14.  [stop] twice is [stop] once: a second [stop], from another
    thread or from the [finally] of [run], changes nothing, also on a
    server that was never started. *)
Theorem stop_twice (w : Server.world) :
  Server.step (Server.step w Server.EvStop) Server.EvStop = Server.step w Server.EvStop
  /\ Server.stop (Server.stop (Server.server w)) = Server.stop (Server.server w)
  /\ Server.stop (Server.__init__ 8080 "0.0.0.0") = Server.__init__ 8080 "0.0.0.0".
Proof.
  split; [|split; [apply stop_stop|reflexivity]].
  cbn. now rewrite stop_stop.
Qed.
End Listener.

(** * Further properties of the client *)

Section Calls.
Context `{PyRuntime} `{Codec}.

(** [call] on a connected client whose request was sent and answered. *)
Lemma call_with_response (self : Client.t) (s : Client.sock) (m : string)
    (args : list value) (kwargs : list (string * value))
    (request_data response_data : bytes) (response : value) :
  Client.socket self = Some s ->
  packb (Client.build_request m args kwargs) = Returns request_data ->
  Client.send s request_data = Returns () ->
  Client.recv s = Returns response_data ->
  unpackb response_data = Returns response ->
  Client.call self m args kwargs = Client.call_except (Client.check_response response).
Proof.
  intros Hsock Hpk Hsend Hrecv Hun.
  unfold Client.call. rewrite Hsock, Hpk. cbn. rewrite Hsend. cbn.
  rewrite Hrecv. cbn. now rewrite Hun.
Qed.

(** X15.  A closed client refuses every call: after a [close] that
    returned, [call] raises [ConnectionError] "Not connected to server",
    whatever the method and the arguments, without touching the codec or a
    socket. *)
Theorem call_after_close (self self' : Client.t) (closed : list Client.sock)
    (m : string) (args : list value) (kwargs : list (string * value)) :
  Client.close self = Returns (self', closed) ->
  Client.call self' m args kwargs = raise ConnectionError "Not connected to server".
Proof.
  unfold Client.close, Client.call.
  destruct (Client.socket self) as [s|] eqn:Hs; cbn.
  - destruct (Client.shut s) as [[]|e]; cbn; [|discriminate].
    intros [= <- _]. reflexivity.
  - intros [= <- _]. now rewrite Hs.
Qed.

(** X16.  The failures of [call] are of two kinds: whatever the codec, the
    socket and the server do, an instance of [Exception] that [call] raises
    is a [ConnectionError] or a [RuntimeError]. *)
Theorem call_failure_kinds (self : Client.t) (m : string) (args : list value)
    (kwargs : list (string * value)) (e : exn) :
  Client.call self m args kwargs = Raises e ->
  is_Exception e = true ->
  exn_class_of e = ConnectionError \/ exn_class_of e = RuntimeError.
Proof.
  unfold Client.call. destruct (Client.socket self) as [s|].
  - unfold Client.call_except.
    destruct (_ ≫= _) as [r|e0]; [discriminate|].
    destruct (is_socket_error e0); [intros [= <-]; now left|].
    destruct (is_Exception e0) eqn:He0; [intros [= <-]; now right|].
    intros [= <-] He. congruence.
  - intros [= <-]. now left.
Qed.

(** X17.  A socket error while sending the request, or while reading the
    response after the request was sent, comes out of [call] as a
    [ConnectionError] whose text is "Communication error: " followed by the
    text of the socket error. *)
Theorem transport_failure_is_ConnectionError (self : Client.t) (s : Client.sock)
    (m : string) (args : list value) (kwargs : list (string * value))
    (request_data : bytes) (e : exn) :
  Client.socket self = Some s ->
  packb (Client.build_request m args kwargs) = Returns request_data ->
  is_socket_error e = true ->
  Client.send s request_data = Raises e
  \/ (Client.send s request_data = Returns () /\ Client.recv s = Raises e) ->
  Client.call self m args kwargs
  = raise ConnectionError ("Communication error: " +:+ exn_str e).
Proof.
  intros Hsock Hpk He Hio. unfold Client.call. rewrite Hsock, Hpk. cbn.
  destruct Hio as [Hs|[Hs Hr]]; rewrite Hs; cbn; rewrite ?Hr; cbn;
    now rewrite He.
Qed.

(** X18.  A response that decodes to anything but a mapping never yields a
    result: [call] raises a [RuntimeError]. *)
Theorem non_mapping_response_raises (self : Client.t) (s : Client.sock)
    (m : string) (args : list value) (kwargs : list (string * value))
    (request_data response_data : bytes) (response : value) :
  Client.socket self = Some s ->
  packb (Client.build_request m args kwargs) = Returns request_data ->
  Client.send s request_data = Returns () ->
  Client.recv s = Returns response_data ->
  unpackb response_data = Returns response ->
  (forall d, response <> VDict d) ->
  exists text, Client.call self m args kwargs = raise RuntimeError text.
Proof.
  intros Hsock Hpk Hsend Hrecv Hun Hnd.
  rewrite (call_with_response self s m args kwargs request_data response_data response)
    by assumption.
  unfold Client.check_response.
  destruct response as [| | | |t| |l|d]; cbn; try (eexists; reflexivity).
  - destruct (str_contains "error" t); cbn; eexists; reflexivity.
  - destruct (existsb _ l); cbn; eexists; reflexivity.
  - now destruct (Hnd d).
Qed.

(** X19.  The failure of a remote function reaches the caller with its
    text and its trace: when the call of the bound function raises an
    instance of [Exception], the client raises a [RuntimeError] whose text is
    "Call failed: Remote call failed: ", the text of the exception, a line
    feed, "Server traceback:", a line feed and the server's trace. *)
Theorem remote_exception_surfaces (srv : Server.t) (m : string) (f : callable)
    (args : list value) (kwargs : list (string * value)) (e : exn) :
  Server.functions srv !! m = Some f ->
  Server.apply_params f (Client.build_params args kwargs) = Raises e ->
  is_Exception e = true ->
  loopback srv (Client.build_request m args kwargs)
  = raise RuntimeError
      ("Call failed: " +:+ "Remote call failed: " +:+ exn_str e +:+ nl
         +:+ "Server traceback:" +:+ nl +:+ format_exc e).
Proof.
  intros Hf Hcall He. unfold loopback, Client.build_request.
  rewrite (process_request_bound srv _ m f); [|reflexivity|exact Hf].
  change (request_params _) with (Client.build_params args kwargs).
  rewrite Hcall. cbn. rewrite He. reflexivity.
Qed.

(** X20.  Calling a name that is not bound raises a [RuntimeError] on the
    client whose text is "Call failed: Remote call failed: Method '",
    the name, and "' not found": there is no trace in it. *)
Theorem unknown_method_surfaces (srv : Server.t) (m : string)
    (args : list value) (kwargs : list (string * value)) :
  Server.functions srv !! m = None ->
  loopback srv (Client.build_request m args kwargs)
  = raise RuntimeError
      ("Call failed: " +:+ "Remote call failed: " +:+ "Method '" +:+ m
         +:+ "' not found").
Proof.
  intros Hf. unfold loopback, Client.build_request, Server._process_request.
  cbn. unfold Server.resolve. cbn. rewrite Hf. reflexivity.
Qed.

(** X21.  A call with keyword arguments only round-trips: the bound
    function receives exactly those keywords and no positional argument, and
    the client gets the wrapper of the value it returns. *)
Theorem keyword_call_round_trip (srv : Server.t) (m : string) (f : callable)
    (kwargs : list (string * value)) (v : value) :
  Server.functions srv !! m = Some f ->
  f [] kwargs = Returns v ->
  loopback srv (Client.build_request m [] kwargs) = Returns (mkRPCResult v).
Proof.
  intros Hf Hv. unfold loopback, Client.build_request.
  rewrite (process_request_bound srv _ m f); [|reflexivity|exact Hf].
  change (request_params _) with (Client.build_params [] kwargs).
  assert (Hcall : Server.apply_params f (Client.build_params [] kwargs) = f [] kwargs).
  { destruct kwargs as [|k rest]; [reflexivity|].
    change (Client.build_params [] (k :: rest)) with (kwargs_dict (k :: rest)).
    unfold kwargs_dict. cbn [Server.apply_params]. now rewrite keywords_kwargs. }
  rewrite Hcall, Hv. reflexivity.
Qed.

(** X22.  A call with both positional and keyword arguments does not bind
    the keywords by name on the server: the function is called positionally,
    with the positional arguments followed by the mapping of the keywords as
    one more positional argument, and with no keyword argument. *)
Theorem mixed_call_passes_mapping_positionally (srv : Server.t) (m : string)
    (f : callable) (args : list value) (kwargs : list (string * value)) :
  Server.functions srv !! m = Some f ->
  args <> [] ->
  kwargs <> [] ->
  Server._process_request srv (Client.build_request m args kwargs)
  = reply_of (f (args ++ [kwargs_dict kwargs]) []).
Proof.
  intros Hf Ha Hk. unfold Client.build_request.
  rewrite (process_request_bound srv _ m f); [|reflexivity|exact Hf].
  destruct args as [|a args]; [contradiction|].
  destruct kwargs as [|k kwargs]; [contradiction|]. reflexivity.
Qed.
End Calls.

(** * Further properties of the result wrapper *)

Lemma key_eqb_text (a : value) (name : string) :
  key_eqb a (VStr name) = match a with VStr s => String.eqb s name | _ => false end.
Proof. destruct a as [| | |[]| | | |]; reflexivity. Qed.

(** Looking a name up after [d[k] = x] for a text key [k]. *)
Lemma dict_lookup_set (d : list (value * value)) (k name : string) (x : value) :
  dict_lookup name (dict_set d (VStr k) x)
  = if String.eqb k name then Some x else dict_lookup name d.
Proof.
  induction d as [|[k' x'] rest IH]; cbn [dict_set dict_lookup].
  - rewrite key_eqb_text. reflexivity.
  - rewrite (key_eqb_text k' k).
    destruct k' as [| | | |s| | |]; cbn [dict_lookup]; rewrite ?key_eqb_text, ?IH;
      try reflexivity.
    destruct (String.eqb s k) eqn:Hsk; cbn [dict_lookup]; rewrite !key_eqb_text.
    + apply String.eqb_eq in Hsk. subst s. now destruct (String.eqb k name).
    + rewrite IH. destruct (String.eqb k name) eqn:Hkn; [|reflexivity].
      apply String.eqb_eq in Hkn. subst name. now rewrite Hsk.
Qed.

Lemma dict_from_pairs (pairs : list (string * value)) (i : nat)
    (acc : list (value * value)) :
  exists d,
    dict_from_items i acc (map (fun kv => VList [VStr (fst kv); snd kv]) pairs)
    = Returns d
    /\ forall name,
         dict_lookup name d = match last_binding name pairs with
                              | Some y => Some y
                              | None => dict_lookup name acc
                              end.
Proof.
  revert i acc. induction pairs as [|[k x] rest IH]; intros i acc.
  - exists acc. split; reflexivity.
  - cbn [map dict_from_items py_iter fst snd hashable].
    destruct (IH (S i) (dict_set acc (VStr k) x)) as (d & Hd & Hlook).
    exists d. split; [exact Hd|]. intros name. rewrite Hlook.
    cbn [last_binding]. destruct (last_binding name rest); [reflexivity|].
    rewrite dict_lookup_set. now destruct (String.eqb k name).
Qed.

(** X23.  [as_dict] of a list of name and value pairs always succeeds, and
    in the dictionary it returns each name has the value of the last pair
    that carries it; a name that no pair carries is absent. *)
Theorem as_dict_last_pair_wins (pairs : list (string * value)) :
  exists d,
    as_dict (mkRPCResult (pair_items pairs)) = Returns d
    /\ forall name, dict_lookup name d = last_binding name pairs.
Proof.
  destruct (dict_from_pairs pairs 0 []) as (d & Hd & Hlook).
  exists d. split; [exact Hd|].
  intros name. rewrite Hlook. now destruct (last_binding name pairs).
Qed.

(** * Properties of the example functions *)

Lemma sum_squares_below (n : nat) :
  6 * py_sum (map (fun i => i * i) (py_range (Z.of_nat n)))
  = (Z.of_nat n - 1) * Z.of_nat n * (2 * Z.of_nat n - 1).
Proof.
  unfold py_sum, py_range. rewrite Nat2Z.id.
  induction n as [|n IH]; [reflexivity|].
  rewrite seq_S, !map_app, fold_left_app. cbn [map fold_left Nat.add].
  rewrite Z.mul_add_distr_l, IH. lia.
Qed.

(** X24.  [heavy_computation(n)] on an integer [n] returns the sum of the
    squares below [n] in closed form, (n-1) n (2n-1) / 6, and 0 when [n] is
    not positive; on an argument of another type than [int] or [bool] it
    raises a [TypeError]. *)
Theorem heavy_computation_closed_form (n : value) :
  match n with
  | VInt z =>
      heavy_computation n
      = Returns (VInt (let k := Z.max 0 z in (k - 1) * k * (2 * k - 1) / 6))
  | VBool b => heavy_computation n = Returns (VInt 0)
  | _ => exists e, heavy_computation n = Raises e /\ exn_class_of e = TypeError
  end.
Proof.
  destruct n as [|b|z| | | | |]; try (eexists; split; reflexivity).
  - now destruct b.
  - cbn. do 2 f_equal.
    assert (Hr : py_range z = py_range (Z.of_nat (Z.to_nat z))).
    { unfold py_range. now rewrite Nat2Z.id. }
    rewrite Hr. apply Z.div_unique_exact; [lia|].
    rewrite sum_squares_below.
    replace (Z.of_nat (Z.to_nat z)) with (Z.max 0 z) by lia. reflexivity.
Qed.

(** * The further properties on the sample server *)

(** X1 on the sample server: [ping] bound late. *)
Lemma bind_then_dispatch_ping :
  Server._process_request (Server.bind Sample.srv "ping" ping)
    (Client.build_request "ping" [] [])
  = Returns (success_envelope (VStr "pong")).
Proof.
  exact (proj1 (bind_then_dispatch Sample.srv "ping" ping Sample.boom
                  [(VStr "method", VStr "ping"); (VStr "params", VList [])] eq_refl)).
Defined.

(** X2 on the sample server: the request is the integer 5. *)
Lemma non_mapping_request_reported_int :
  Server._process_request Sample.srv (VInt 5)
  = Returns (Server.error_response
               (Exn AttributeError "'int' object has no attribute 'get'")).
Proof.
  apply (non_mapping_request_reported Sample.srv (VInt 5)). discriminate.
Defined.

(** X3 on the sample server: the method is a list. *)
Lemma non_string_method_reported_list :
  Server._process_request Sample.srv (VDict [(VStr "method", VList [VStr "add"])])
  = Returns (Server.error_response (Exn TypeError "unhashable type: 'list'")).
Proof.
  apply (non_string_method_reported Sample.srv
           [(VStr "method", VList [VStr "add"])] (VList [VStr "add"]) eq_refl).
  discriminate.
Defined.

(** X4 on the sample server: the empty request. *)
Lemma absent_keys_default_empty :
  Server._process_request Sample.srv (VDict []) = Returns (not_found_envelope "None").
Proof. exact (proj1 (absent_keys_default Sample.srv []) eq_refl). Defined.

(** X5 on the sample server: a call of [quit]. *)
Lemma process_request_raises_only_BaseException_quit :
  is_Exception (Exn SystemExit "0") = false
  /\ exists d name f args kwargs,
       Client.build_request "quit" [] [] = VDict d
       /\ dict_lookup "method" d = Some (VStr name)
       /\ Server.functions Sample.srv !! name = Some f
       /\ f args kwargs = Raises (Exn SystemExit "0").
Proof.
  exact (process_request_raises_only_BaseException Sample.srv
           (Client.build_request "quit" [] []) (Exn SystemExit "0") eq_refl).
Defined.

(** X6 on the sample server: the peer closes, then something else arrives. *)
Lemma read_ends_connection_sample :
  Server.conns
    (Server.run_events Sample.world1
       [Server.EvRecv 0 (Returns []);
        Server.EvRecv 0 (Returns (Sample.request_bytes "add" [VInt 2; VInt 3] []))])
    !! 0%nat
  = Some {| Server.c_send := Sample.send_ok; Server.c_open := false;
            Server.c_sent := []; Server.c_escaped := None |}.
Proof.
  apply (read_ends_connection Sample.world1 0 Sample.conn0 (Returns [])
           [Server.EvRecv 0 (Returns (Sample.request_bytes "add" [VInt 2; VInt 3] []))]);
    [reflexivity|reflexivity|left; reflexivity].
Defined.

(** X7 on the sample server: the byte [0xc1], which is no encoding. *)
Lemma decode_failure_answered_sample :
  Server._handle_client_recv Sample.running_srv Sample.conn0 (Returns [Byte.xc1])
  = answered Sample.conn0
      (Sample.bytes_of
         (Server.error_response (Exn ValueError "Unpack failed: incomplete input"))).
Proof.
  apply (decode_failure_answered Sample.running_srv Sample.conn0 [Byte.xc1]
           (Sample.bytes_of
              (Server.error_response (Exn ValueError "Unpack failed: incomplete input")))
           (Exn ValueError "Unpack failed: incomplete input"));
    try reflexivity.
  discriminate.
Defined.

(** X8 on the sample server with [half] bound: the result is a float. *)
Lemma unencodable_result_answered_sample :
  Server._handle_client_recv (Server.bind Sample.running_srv "half" half) Sample.conn0
    (Returns (Sample.request_bytes "half" [] []))
  = answered Sample.conn0
      (Sample.bytes_of
         (Server.error_response (Exn TypeError "can not serialize 'dict' object"))).
Proof.
  apply (unencodable_result_answered (Server.bind Sample.running_srv "half" half)
           Sample.conn0 (Sample.request_bytes "half" [] [])
           (Sample.bytes_of
              (Server.error_response (Exn TypeError "can not serialize 'dict' object")))
           (Client.build_request "half" [] [])
           (success_envelope (VFloat (S754_finite false 1 (-1))))
           (Exn TypeError "can not serialize 'dict' object"));
    try reflexivity.
  vm_compute. discriminate.
Defined.

(** X9 on the sample server: a call of [add]. *)
Lemma one_reply_or_close_sample :
  (exists msg,
      Server._handle_client_recv Sample.running_srv Sample.conn0
        (Returns (Sample.request_bytes "add" [VInt 2; VInt 3] []))
      = answered Sample.conn0 msg
      /\ Server.c_send Sample.conn0 msg = Returns ())
  \/ (exists e,
        Server._handle_client_recv Sample.running_srv Sample.conn0
          (Returns (Sample.request_bytes "add" [VInt 2; VInt 3] []))
        = Server.finish Sample.conn0 [] (Some e)).
Proof.
  apply (one_reply_or_close Sample.running_srv Sample.conn0
           (Sample.request_bytes "add" [VInt 2; VInt 3] []));
    try reflexivity.
  vm_compute. discriminate.
Defined.

(** X10 on the sample server: the handler that served [quit]. *)
Lemma handler_contains_Exceptions_quit :
  Server.c_escaped Sample.conn0 = Some (Exn SystemExit "0")
  \/ is_Exception (Exn SystemExit "0") = false.
Proof.
  apply (handler_contains_Exceptions Sample.running_srv Sample.conn0
           (Returns (Sample.request_bytes "quit" [] []))).
  vm_compute. reflexivity.
Defined.

(** X11 on the sample server: a second peer connects. *)
Lemma connections_do_not_interfere_sample :
  Server.conns (Server.step Sample.world1 (Server.EvConnect Sample.send_ok)) !! 0%nat
  = Some Sample.conn0.
Proof.
  apply (proj1 (connections_do_not_interfere Sample.world1 0 Sample.conn0 eq_refl)).
  discriminate.
Defined.

(** X12 on the sample server: two requests and a stop. *)
Lemma sent_log_only_grows_sample :
  exists c',
    Server.conns
      (Server.run_events Sample.world1
         [Server.EvRecv 0 (Returns (Sample.request_bytes "add" [VInt 2; VInt 3] []));
          Server.EvStop;
          Server.EvRecv 0 (Returns (Sample.request_bytes "boom" [] []))]) !! 0%nat
    = Some c'
    /\ Server.c_sent Sample.conn0 `prefix_of` Server.c_sent c'
    /\ Server.c_send c' = Server.c_send Sample.conn0.
Proof.
  exact (sent_log_only_grows
           [Server.EvRecv 0 (Returns (Sample.request_bytes "add" [VInt 2; VInt 3] []));
            Server.EvStop;
            Server.EvRecv 0 (Returns (Sample.request_bytes "boom" [] []))]
           Sample.world1 0 Sample.conn0 eq_refl).
Defined.

(** X15 on the sample client. *)
Lemma call_after_close_sample :
  Client.call (Client.mk "127.0.0.1" 8080 None) "add" [VInt 2; VInt 3] []
  = raise ConnectionError "Not connected to server".
Proof.
  exact (call_after_close (Sample.client VNone) (Client.mk "127.0.0.1" 8080 None)
           [Sample.sock VNone] "add" [VInt 2; VInt 3] [] eq_refl).
Defined.

(** X16 on the sample client: the response is an error envelope. *)
Lemma call_failure_kinds_sample :
  exn_class_of (Exn RuntimeError "Call failed: Remote call failed: oops") = ConnectionError
  \/ exn_class_of (Exn RuntimeError "Call failed: Remote call failed: oops") = RuntimeError.
Proof.
  apply (call_failure_kinds (Sample.client (VDict [(VStr "error", VStr "oops")]))
           "add" [VInt 2; VInt 3] []); reflexivity.
Defined.

(** X17 on a client whose socket is broken. *)
Lemma transport_failure_is_ConnectionError_sample :
  Client.call (Client.mk "127.0.0.1" 8080 (Some broken_sock)) "add" [VInt 2; VInt 3] []
  = raise ConnectionError "Communication error: [Errno 32] Broken pipe".
Proof.
  apply (transport_failure_is_ConnectionError
           (Client.mk "127.0.0.1" 8080 (Some broken_sock)) broken_sock
           "add" [VInt 2; VInt 3] []
           (Sample.request_bytes "add" [VInt 2; VInt 3] [])
           (Exn OSError "[Errno 32] Broken pipe"));
    try reflexivity.
  left. reflexivity.
Defined.

(** X18 on the sample client: the response is a list. *)
Lemma non_mapping_response_raises_sample :
  exists text,
    Client.call (Sample.client (VList [VStr "error"])) "add" [VInt 2; VInt 3] []
    = raise RuntimeError text.
Proof.
  apply (non_mapping_response_raises (Sample.client (VList [VStr "error"]))
           (Sample.sock (VList [VStr "error"])) "add" [VInt 2; VInt 3] []
           (Sample.request_bytes "add" [VInt 2; VInt 3] [])
           (Sample.bytes_of (VList [VStr "error"])) (VList [VStr "error"]));
    try reflexivity.
  discriminate.
Defined.

(** X19 on the sample server: a call of [boom]. *)
Lemma remote_exception_surfaces_boom :
  loopback Sample.srv (Client.build_request "boom" [VInt 1] [])
  = raise RuntimeError
      ("Call failed: " +:+ "Remote call failed: " +:+ "bad input" +:+ nl
         +:+ "Server traceback:" +:+ nl
         +:+ format_exc (Exn ValueError "bad input")).
Proof.
  exact (remote_exception_surfaces Sample.srv "boom" Sample.boom [VInt 1] []
           (Exn ValueError "bad input") eq_refl eq_refl eq_refl).
Defined.

(** X20 on the sample server: a call of [nonexistent]. *)
Lemma unknown_method_surfaces_sample :
  loopback Sample.srv (Client.build_request "nonexistent" [] [])
  = raise RuntimeError
      "Call failed: Remote call failed: Method 'nonexistent' not found".
Proof.
  exact (unknown_method_surfaces Sample.srv "nonexistent" [] [] eq_refl).
Defined.

(** X21 on the sample server: [greet(name="World")]. *)
Lemma keyword_call_round_trip_greet :
  loopback Sample.srv (Client.build_request "greet" [] [("name", VStr "World")])
  = Returns (mkRPCResult (VStr "Hello, World!")).
Proof.
  exact (keyword_call_round_trip Sample.srv "greet" Sample.greet
           [("name", VStr "World")] (VStr "Hello, World!") eq_refl eq_refl).
Defined.

(** X22 on the sample server: [add(2, b=3)] reaches [add] as two positional
    arguments, the second one a mapping. *)
Lemma mixed_call_passes_mapping_positionally_add :
  Server._process_request Sample.srv
    (Client.build_request "add" [VInt 2] [("b", VInt 3)])
  = reply_of (Sample.add [VInt 2; VDict [(VStr "b", VInt 3)]] []).
Proof.
  apply (mixed_call_passes_mapping_positionally Sample.srv "add" Sample.add
           [VInt 2] [("b", VInt 3)]); [reflexivity|discriminate|discriminate].
Defined.

(** * The conversions of the result wrapper *)

Section ConversionTable.
Context `{PyRuntime}.













End ConversionTable.

